(** * Instrumentation and logging subsystem of the Next.js application shell

    A shallow embedding of

    - [src/app/lib/supabase/environment.ts]  ([getEnvironment], [SupabaseLogger]),
    - [src/instrumentation.ts]               (the [window.fetch] override),
    - [src/app/api/traces/route.ts]          (the ingest handler [POST]),

    followed by the properties of the specification that concern them.

    Conventions of the embedding.

    - JavaScript numbers are IEEE-754 doubles: [PrimFloat.float].
    - Strings are byte strings (UTF-8); the tests the code makes on them
      ([startsWith], [includes]) look for ASCII text, which occurs in the
      bytes exactly where it occurs in the characters.
    - JavaScript values are finite trees ([JsValue]); objects are association
      lists in property order.  Cyclic object graphs, functions, symbols and
      BigInts are outside the value universe.
    - Readings of the clocks ([Date.now()], [performance.now()]) are inputs of
      the functions that take them.
    - Host functions that only render text ([Date.prototype.toISOString],
      [Number.prototype.toFixed], [JSON.stringify], ...) are the fields of a
      record [Builtins] the definitions are parametrised by.
    - An [async] function returns a promise; a promise is represented by the
      way it settles ([Settled]). *)

From Stdlib Require Import List String Ascii Bool ZArith Lia.
From Corelib Require Import PrimFloat.
Import ListNotations.

Set Implicit Arguments.
Set Warnings "-register-all".
Open Scope string_scope.

(* ================================================================== *)
(** * Part I: the embedding                                            *)
(* ================================================================== *)

(** ** JavaScript values *)

Module Js.

Inductive JsValue : Type :=
| VUndefined
| VNull
| VBool (b : bool)
| VNum (n : float)
| VStr (s : string)
| VArr (items : list JsValue)
| VObj (fields : list (string * JsValue))
(** an instance of [Error]: [message] and [stack] are own, non-enumerable
    properties; [own] are the enumerable own properties. *)
| VError (message : string) (stack : option string)
         (own : list (string * JsValue)).

Definition Fields := list (string * JsValue).

(** Numbers that are falsy: [+0], [-0] and [NaN]. *)
Definition falsyNumber (n : float) : bool :=
  (PrimFloat.eqb n 0 || PrimFloat.is_nan n)%bool.

(** [ToBoolean]. *)
Definition truthy (v : JsValue) : bool :=
  match v with
  | VUndefined | VNull => false
  | VBool b => b
  | VNum n => negb (falsyNumber n)
  | VStr s => negb (String.eqb s "")
  | VArr _ | VObj _ | VError _ _ _ => true
  end.

(** [v === undefined || v === null]. *)
Definition nullish (v : JsValue) : bool :=
  match v with
  | VUndefined | VNull => true
  | _ => false
  end.

(** [s.startsWith(p)]. *)
Definition startsWith (p s : string) : bool := String.prefix p s.

(** [s.includes(p)]. *)
Fixpoint includes (p s : string) : bool :=
  (String.prefix p s ||
   match s with
   | EmptyString => false
   | String _ s' => includes p s'
   end)%bool.

(** Property lookup in an object literal's field list. *)
Fixpoint lookup (k : string) (fs : Fields) : option JsValue :=
  match fs with
  | [] => None
  | (k', v) :: fs' => if String.eqb k k' then Some v else lookup k fs'
  end.

(** [o[k] = v] on a field list: overwrite in place, or add at the end. *)
Fixpoint setField (k : string) (v : JsValue) (fs : Fields) : Fields :=
  match fs with
  | [] => [(k, v)]
  | (k', v') :: fs' =>
      if String.eqb k k' then (k, v) :: fs' else (k', v') :: setField k v fs'
  end.

Definition optStr (o : option string) : JsValue :=
  match o with
  | Some s => VStr s
  | None => VUndefined
  end.

(** [v.k] for a value that is not [null] or [undefined] (primitives and
    arrays have none of the properties the code reads). *)
Definition getProp (v : JsValue) (k : string) : JsValue :=
  match v with
  | VObj fs =>
      match lookup k fs with
      | Some x => x
      | None => VUndefined
      end
  | VError m st own =>
      if String.eqb k "message" then VStr m
      else if String.eqb k "stack" then optStr st
      else match lookup k own with
           | Some x => x
           | None => VUndefined
           end
  | _ => VUndefined
  end.

(** [v?.k]. *)
Definition getPropOpt (v : JsValue) (k : string) : JsValue :=
  if nullish v then VUndefined else getProp v k.

(** How a promise settles. *)
Inductive Settled : Type :=
| Fulfilled (v : JsValue)
| Rejected (e : JsValue).

(** What a call of a function does: return a value that is not a promise,
    throw, or return a promise. *)
Inductive CallResult : Type :=
| Returned (v : JsValue)
| Thrown (e : JsValue)
| Promised (p : Settled).

(** [try { x = await call } catch (e) { ... }]: the value or the error the
    [await] gives back. *)
Definition await (r : CallResult) : Settled :=
  match r with
  | Returned v => Fulfilled v
  | Thrown e => Rejected e
  | Promised p => p
  end.

(** Text rendering done by the host. *)
Record Builtins : Type := {
  (** [new Date(t).toISOString()] for a valid time value [t] *)
  toISOString : float -> string;
  (** [n.toFixed(2)] *)
  toFixed2 : float -> string;
  (** [String(n)] for a number *)
  numberToString : float -> string;
  (** [JSON.stringify(v)] *)
  stringify : JsValue -> string;
  (** [JSON.stringify(v, null, 2)] *)
  stringifyIndent2 : JsValue -> string;
  (** [String(v)] for an object or an array *)
  objectToString : JsValue -> string;
  (** [s.replace(/https:\/\/.*\.supabase\.co/, r)] *)
  replaceSupabaseHost : string -> string -> string
}.

(** [String(v)] and template-literal interpolation. *)
Definition toString (B : Builtins) (v : JsValue) : string :=
  match v with
  | VUndefined => "undefined"
  | VNull => "null"
  | VBool true => "true"
  | VBool false => "false"
  | VNum n => numberToString B n
  | VStr s => s
  | _ => objectToString B v
  end.

(** [xs.join(sep)]. *)
Fixpoint join (sep : string) (xs : list string) : string :=
  match xs with
  | [] => ""
  | [x] => x
  | x :: rest => x ++ sep ++ join sep rest
  end.

End Js.

Import Js.

(** ** environment.ts: the environment classifier *)

Module Environment.

(** The part of [process.env] the code reads. *)
Record ProcessEnv : Type := {
  NODE_ENV : option string;
  NEXT_PUBLIC_VERCEL_ENV : option string;
  NEXT_RUNTIME : option string
}.

(** The ambient context: [hostname] is [Some h] where [window] is defined,
    with [h = window.location.hostname]. *)
Record Ambient : Type := {
  hostname : option string;
  processEnv : ProcessEnv
}.

(** [a || b] where [a] is a string or undefined and [b] a string. *)
Definition orElse (a : option string) (b : string) : string :=
  match a with
  | Some s => if String.eqb s "" then b else s
  | None => b
  end.

(** The type annotation [Environment] is erased at run time: the function
    returns the string it reads. *)
Definition getEnvironment (a : Ambient) : string :=
  match hostname a with
  | None =>
      orElse (NEXT_PUBLIC_VERCEL_ENV (processEnv a))
             (orElse (NODE_ENV (processEnv a)) "development")
  | Some h =>
      if String.eqb h "localhost" then "development" else "production"
  end.

(** The three labels of the type [Environment]. *)
Definition isEnvironment (s : string) : bool :=
  (String.eqb s "development" || String.eqb s "preview" ||
   String.eqb s "production")%bool.

(** A variable that is unset, empty, or holds one of the three labels. *)
Definition labelOrUnset (o : option string) : bool :=
  match o with
  | None => true
  | Some s => (String.eqb s "" || isEnvironment s)%bool
  end.

End Environment.

Import Environment.

(** ** environment.ts: the logger *)

Module Logger.

Inductive LogLevel : Type := Info | Warn | Error | Debug.

Definition LogLevel_eqb (a b : LogLevel) : bool :=
  match a, b with
  | Info, Info | Warn, Warn | Error, Error | Debug, Debug => true
  | _, _ => false
  end.

(** [interface LogDetails]: an object, as its entries in property order. *)
Definition LogDetails := Fields.

(** [interface SupabaseLog]; an optional field that is absent is [None].
    [error] holds what [formatError] returned: an object. *)
Record SupabaseLog : Type := {
  timestamp : float;
  level : LogLevel;
  operation : string;
  details : option LogDetails;
  duration : option float;
  error : option JsValue;
  environment : string
}.

(** The logger's array [logs] and the lines written with [console.log],
    oldest line first. *)
Record State : Type := {
  logs : list SupabaseLog;
  console : list string
}.

Definition MAX_LOGS : nat := 1000.

(** [getInstance()] on first use. *)
Definition initial : State := {| logs := []; console := [] |}.

(** [process.env.NODE_ENV === name]. *)
Definition nodeEnvIs (env : ProcessEnv) (name : string) : bool :=
  match NODE_ENV env with
  | Some s => String.eqb s name
  | None => false
  end.

Definition isDevelopment (env : ProcessEnv) : bool := nodeEnvIs env "development".
Definition isProduction (env : ProcessEnv) : bool := nodeEnvIs env "production".

Definition REDACTED : JsValue := VStr "[REDACTED]".

(** The test of lines 127-131 on a key. *)
Definition sensitiveKey (key : string) : bool :=
  (includes "password" key || includes "token" key || includes "key" key ||
   includes "secret" key || includes "session" key)%bool.

(** One turn of the loop of [sanitizeLogDetails]. *)
Definition sanitizeEntry (env : ProcessEnv) (sanitized : LogDetails)
    (entry : string * JsValue) : LogDetails :=
  let '(key, value) := entry in
  if (negb (startsWith "_" key) && negb (nullish value))%bool then
    if (isProduction env && sensitiveKey key)%bool
    then setField key REDACTED sanitized
    else setField key value sanitized
  else sanitized.

(** [sanitizeLogDetails]: its argument has the type [LogDetails], so the
    guard of line 116 does not fire. *)
Definition sanitizeLogDetails (env : ProcessEnv) (details : LogDetails)
    : LogDetails :=
  fold_left (sanitizeEntry env) details [].

Definition nl : string := String (ascii_of_nat 10) "".

Section WithBuiltins.

Context (B : Builtins).

Fixpoint formatValue (value : JsValue) : string :=
  match value with
  | VArr items => "[" ++ join ", " (map formatValue items) ++ "]"
  | VObj _ | VError _ _ _ => stringifyIndent2 B value
  | _ => toString B value
  end.

(** [formatError]. *)
Definition formatError (error : JsValue) : JsValue :=
  match error with
  | VError message stack own =>
      VObj (fold_left (fun o kv => setField (fst kv) (snd kv) o) own
              [("message", VStr message); ("stack", optStr stack)])
  | VObj _ | VArr _ => error
  | _ => VObj [("message", VStr (toString B error))]
  end.

Definition levelIcon (l : LogLevel) : string :=
  match l with
  | Info => "ℹ️"
  | Warn => "⚠️"
  | Error => "❌"
  | Debug => "🔍"
  end.

(** [if (e.k) message += prefix + render(e.k)]. *)
Definition errorLine (e : JsValue) (k prefix : string)
    (render : JsValue -> string) : string :=
  let x := getProp e k in
  if truthy x then nl ++ prefix ++ render x else "".

Definition formatLog (env : ProcessEnv) (log : SupabaseLog) : string :=
  let message :=
    "💫" ++ " [" ++ toISOString B (timestamp log) ++ "] " ++
    levelIcon (level log) ++ " Supabase." ++ operation log in
  let message :=
    match duration log with
    | Some d => message ++ " (" ++ toFixed2 B d ++ "ms)"
    | None => message
    end in
  let message :=
    match details log with
    | Some d =>
        fold_left
          (fun m kv =>
             if nullish (snd kv) then m
             else m ++ nl ++ "    " ++ fst kv ++ ": " ++ formatValue (snd kv))
          (sanitizeLogDetails env d)
          (message ++ nl ++ "  Details:")
    | None => message
    end in
  match error log with
  | Some e =>
      message ++ nl ++ "  Error:" ++
      errorLine e "message" "    Message: " (toString B) ++
      errorLine e "code" "    Code: " (toString B) ++
      errorLine e "details" "    Details: " (stringify B) ++
      errorLine e "hint" "    Hint: " (toString B) ++
      (if isDevelopment env
       then errorLine e "stack" "    Stack: " (toString B) else "")
  | None => message
  end.

(** The object built at lines 159-167.  [now] is [Date.now()]; [details] is
    an object or [undefined]; [error] is any value ([VUndefined] when the
    argument is left out); [duration] is a number or [undefined]. *)
Definition makeLog (env : ProcessEnv) (now : float) (level : LogLevel)
    (operation : string) (details : option LogDetails) (error : JsValue)
    (duration : option float) : SupabaseLog :=
  {| timestamp := now;
     level := level;
     operation := operation;
     details := details;
     error := if truthy error then Some (formatError error) else None;
     duration :=
       match duration with
       | Some d => if falsyNumber d then None else Some d
       | None => None
       end;
     environment := orElse (NODE_ENV env) "development" |}.

(** [this.logs.unshift(log); if (this.logs.length > MAX_LOGS) this.logs.pop()]. *)
Definition push (log : SupabaseLog) (store : list SupabaseLog)
    : list SupabaseLog :=
  let store := log :: store in
  if (MAX_LOGS <? List.length store)%nat then removelast store else store.

Definition log (env : ProcessEnv) (now : float) (level : LogLevel)
    (operation : string) (details : option LogDetails) (error : JsValue)
    (duration : option float) (st : State) : State :=
  let entry := makeLog env now level operation details error duration in
  if isDevelopment env then
    {| logs := push entry (logs st);
       console := console st ++ [formatLog env entry] |}
  else st.

End WithBuiltins.

(** [xs.slice(0, end)] for an integer [end]. *)
Definition slice0 {A : Type} (end_ : Z) (xs : list A) : list A :=
  let len := Z.of_nat (List.length xs) in
  let final := if (end_ <? 0)%Z then Z.max (len + end_) 0 else Z.min end_ len in
  firstn (Z.to_nat final) xs.

(** [getLogs(limit = 100, level?)]; it returns the array and leaves the
    logger as it is. *)
Definition getLogs (limit : option Z) (level_ : option LogLevel) (st : State)
    : list SupabaseLog * State :=
  let limit := match limit with Some n => n | None => 100%Z end in
  let filteredLogs := logs st in
  let filteredLogs :=
    match level_ with
    | Some l => filter (fun log => LogLevel_eqb (level log) l) filteredLogs
    | None => filteredLogs
    end in
  (slice0 limit filteredLogs, st).

Definition clearLogs (st : State) : State :=
  {| logs := []; console := console st |}.

(** *** [wrapClient] *)

(** The readings of the clocks during one call of a wrapped method:
    [performance.now()] before the call and after the [await], and the
    [Date.now()] of the log entry. *)
Record Clock : Type := {
  perfStart : float;
  perfEnd : float;
  dateNow : float
}.

(** A function-valued property: from [this], the arguments, the clock and
    the logger (which a method may itself reach) to what the call does. *)
Definition Callable : Type :=
  JsValue -> list JsValue -> Clock -> State -> CallResult * State.

(** [Reflect.get(target, prop, receiver)]: a function or another value. *)
Inductive Property : Type :=
| Method (f : Callable)
| Data (v : JsValue).

Definition Client : Type := string -> Property.

Section WithBuiltinsWrapper.

Context (B : Builtins).

(** The [apply] trap of lines 217-244. *)
Definition applyTrap (env : ProcessEnv) (prop : string) (target : Callable)
    : Callable :=
  fun thisArg args clk st =>
    let startTime := perfStart clk in
    let '(r, st) := target thisArg args clk st in
    match await r with
    | Fulfilled result =>
        let st :=
          log B env (dateNow clk) Info prop
            (Some [("arguments", VArr args);
                   ("result", getPropOpt result "data")])
            VUndefined
            (Some (PrimFloat.sub (perfEnd clk) startTime)) st in
        (Promised (Fulfilled result), st)
    | Rejected error =>
        let st :=
          log B env (dateNow clk) Error prop
            (Some [("arguments", VArr args)])
            error
            (Some (PrimFloat.sub (perfEnd clk) startTime)) st in
        (Promised (Rejected error), st)
    end.

Definition wrapClient (env : ProcessEnv) (client : Client) : Client :=
  if negb (isDevelopment env) then client
  else fun prop =>
         match client prop with
         | Method value => Method (applyTrap env prop value)
         | Data value => Data value
         end.

(** A call of [log]: its arguments and the [Date.now()] it reads. *)
Record LogCall : Type := {
  callNow : float;
  callLevel : LogLevel;
  callOperation : string;
  callDetails : option LogDetails;
  callError : JsValue;
  callDuration : option float
}.

Definition logCall (env : ProcessEnv) (st : State) (c : LogCall) : State :=
  log B env (callNow c) (callLevel c) (callOperation c) (callDetails c)
    (callError c) (callDuration c) st.

(** The entry a call builds. *)
Definition entryOf (env : ProcessEnv) (c : LogCall) : SupabaseLog :=
  makeLog B env (callNow c) (callLevel c) (callOperation c) (callDetails c)
    (callError c) (callDuration c).

(** A sequence of calls, first call first. *)
Definition logAll (env : ProcessEnv) (calls : list LogCall) (st : State)
    : State :=
  fold_left (logCall env) calls st.

End WithBuiltinsWrapper.

(** The call [client[prop](...args)] with [this] bound to [thisArg]; to call
    a property that is not a function throws a [TypeError]. *)
Definition invoke (client : Client) (prop : string) (thisArg : JsValue)
    (args : list JsValue) (clk : Clock) (st : State) : CallResult * State :=
  match client prop with
  | Method f => f thisArg args clk st
  | Data _ => (Thrown (VError (prop ++ " is not a function") None []), st)
  end.

(** [performance.now() - startTime]. *)
Definition elapsed (clk : Clock) : float :=
  PrimFloat.sub (perfEnd clk) (perfStart clk).

(** The last [n] elements of a list. *)
Definition lastn {A : Type} (n : nat) (xs : list A) : list A :=
  skipn (List.length xs - n) xs.

End Logger.

Import Logger.

(** ** instrumentation.ts: the tap on [window.fetch] *)

Module Instrumentation.

(** The first argument of [fetch]: a string, a [URL] (its [href]) or a
    [Request] (its [url] and the rest of it). *)
Record RequestObject : Type := {
  requestUrl : string;
  requestMethod : string;
  requestBody : option string
}.

Inductive RequestInfo : Type :=
| InputString (url : string)
| InputURL (href : string)
| InputRequest (request : RequestObject).

Record RequestInit : Type := {
  method : option string;
  headers : list (string * string);
  body : option string
}.

(** A response: [contentType] is [headers.get("content-type")], [json] is
    what [clone().json()] resolves to, [None] when it rejects. *)
Record Response : Type := {
  ok : bool;
  status : float;
  statusText : string;
  contentType : option string;
  json : option JsValue
}.

(** How the promise of a [fetch] settles. *)
Inductive FetchResult : Type :=
| Resolves (response : Response)
| Rejects (error : JsValue).

Section Tap.

(** The network seen from the page, and the browser's own [fetch]. *)
Context (Net : Type).
Context (originalFetch :
           RequestInfo -> option RequestInit -> Net -> FetchResult * Net).
Context (B : Builtins).

(** The page: the network, and how many proxies that silence
    [console.error] have been put around [console]. *)
Record Page : Type := {
  net : Net;
  consoleProxies : nat
}.

(** A [fetch] function as the page calls it; the clock gives the readings
    taken during the call. *)
Definition Fetch : Type :=
  RequestInfo -> option RequestInit -> Clock -> Page -> FetchResult * Page.

(** [originalFetch(input, init)]. *)
Definition callOriginal : Fetch :=
  fun input init _ page =>
    let '(result, net') := originalFetch input init (net page) in
    (result, {| net := net'; consoleProxies := consoleProxies page |}).

(** [console = new Proxy(console, ...)]. *)
Definition silenceConsoleError (page : Page) : Page :=
  {| net := net page; consoleProxies := S (consoleProxies page) |}.

(** [sendToServer(log)]; [fetch] is the function the global name denotes when
    the call is made, and its failure is swallowed. *)
Definition sendToServer (fetch : Fetch) (log : Fields) (clk : Clock)
    (page : Page) : Page :=
  let event :=
    setField "environment" (VStr "client")
      (setField "timestamp" (VNum (dateNow clk)) log) in
  snd (fetch (InputString "/api/traces")
         (Some {| method := Some "POST";
                  headers := [("Content-Type", "application/json")];
                  body := Some (stringify B (VArr [VObj event])) |})
         clk page).

Definition urlOf (input : RequestInfo) : string :=
  match input with
  | InputString url => url
  | InputURL href => href
  | InputRequest request => requestUrl request
  end.

(** [init?.method || "GET"]. *)
Definition methodOf (init : option RequestInit) : string :=
  match init with
  | Some i => orElse (method i) "GET"
  | None => "GET"
  end.

(** The data read from the copy of the response (lines 76-87). *)
Definition responseDataOf (response : Response) : JsValue :=
  match contentType response with
  | Some ct =>
      if includes "application/json" ct then
        match json response with
        | Some data => data
        | None => VUndefined
        end
      else VUndefined
  | None => VUndefined
  end.

Definition redactedUrl (url : string) : JsValue :=
  VStr (replaceSupabaseHost B url "[SUPABASE_URL]").

(** The function assigned to [window.fetch] (lines 56-145); [fetch] is what
    the name [fetch] denotes inside [sendToServer].  The value a [fetch]
    rejects with is an [Error], so [error.message] and [error.stack] can be
    read. *)
Definition tappedFetch (fetch : Fetch) : Fetch :=
  fun input init clk page =>
    let url := urlOf input in
    if includes "supabase.co" url then
      let startTime := perfStart clk in
      match callOriginal input init clk page with
      | (Resolves response, page) =>
          let duration := PrimFloat.sub (perfEnd clk) startTime in
          let responseData := responseDataOf response in
          let page :=
            if negb (ok response) then
              sendToServer fetch
                [("name", VStr "Supabase.error");
                 ("level", VStr "error");
                 ("duration", VNum duration);
                 ("attributes",
                  VObj [("url", redactedUrl url);
                        ("method", VStr (methodOf init));
                        ("status", VNum (status response));
                        ("statusText", VStr (statusText response));
                        ("error", responseData)])]
                clk (silenceConsoleError page)
            else page in
          (Resolves response, page)
      | (Rejects error, page) =>
          let page :=
            sendToServer fetch
              [("name", VStr "Supabase.error");
               ("level", VStr "error");
               ("attributes",
                VObj [("url", redactedUrl url);
                      ("method", VStr (methodOf init));
                      ("error", getProp error "message");
                      ("stack", getProp error "stack")])]
              clk (silenceConsoleError page) in
          (Rejects error, page)
      end
    else callOriginal input init clk page.

(** After the assignment the name [fetch] denotes the tapped function
    itself.  The only call it makes through that name has the address
    ["/api/traces"], which the inner tap hands to [originalFetch], so two
    layers give the function ([windowFetch_unfold] below). *)
Definition windowFetch : Fetch := tappedFetch (tappedFetch callOriginal).

End Tap.

End Instrumentation.

(** ** api/traces/route.ts: the ingest handler *)

Module TracesRoute.

(** [interface TraceAttributes]; the handler reads these six properties. *)
Record TraceAttributes : Type := {
  method : option string;
  url : option string;
  status : option float;
  statusText : option string;
  error : option JsValue;
  stack : option string
}.

Inductive Origin : Type := client | server.

(** [interface TraceEvent]. *)
Record TraceEvent : Type := {
  name : string;
  duration : option float;
  attributes : option TraceAttributes;
  level : option string;
  environment : Origin;
  timestamp : float
}.

(** A time value [new Date(t)] accepts: finite and at most 8.64e15 ms from
    the epoch.  For any other, [toISOString()] throws a [RangeError]. *)
Definition validTime (t : float) : bool :=
  PrimFloat.leb (PrimFloat.abs t) 8.64e15.

(** What the body of a request is: not JSON, JSON that is not an array, or
    an array of trace events. *)
Inductive NonArrayJson : Type :=
| JNull
| JBool (b : bool)
| JNumber (n : float)
| JString (s : string)
| JObject (fields : Fields).

(** (An array with an element that is not a trace event is not a body of
    this type.) *)
Inductive RequestBody : Type :=
| NotJson
| NotArray (v : NonArrayJson)
| TraceArray (traces : list TraceEvent).

(** What the [try] block can throw. *)
Inductive Failure : Type :=
| SyntaxError   (** [request.json()] on a body that is not JSON *)
| TypeError     (** [traces.forEach] on a value that is not an array *)
| RangeError.   (** [toISOString()] on an invalid date *)

(** A call of [console.error]. *)
Inductive ConsoleError : Type :=
| SupabaseError (message : string)
| ErrorProcessingTraces (error : Failure).

Record NextResponse : Type := {
  responseStatus : nat;
  responseBody : JsValue
}.

Definition okResponse : NextResponse :=
  {| responseStatus := 200; responseBody := VObj [("ok", VBool true)] |}.

Definition invalidResponse : NextResponse :=
  {| responseStatus := 400;
     responseBody := VObj [("error", VStr "Invalid trace data")] |}.

Section Handler.

Context (B : Builtins).

(** [o?.k] as text in a template literal. *)
Definition shown (o : option string) : string :=
  match o with
  | Some s => s
  | None => "undefined"
  end.

Definition truthyString (o : option string) : bool :=
  match o with
  | Some s => negb (String.eqb s "")
  | None => false
  end.

(** [formatSupabaseError]; [None] when [toISOString()] throws. *)
Definition formatSupabaseError (trace : TraceEvent) : option string :=
  if validTime (timestamp trace) then
    let message :=
      "💫 [" ++ toISOString B (timestamp trace) ++ "] Supabase Error:" in
    let message :=
      match duration trace with
      | Some d =>
          if falsyNumber d then message
          else message ++ " (" ++ toFixed2 B d ++ "ms)"
      | None => message
      end in
    let message :=
      match attributes trace with
      | Some a =>
          let message :=
            if truthyString (method a)
            then message ++ nl ++ "  Request: " ++ shown (method a) ++ " "
                         ++ shown (url a)
            else message in
          let message :=
            match status a with
            | Some n =>
                if falsyNumber n then message
                else message ++ nl ++ "  Status: " ++ numberToString B n
                             ++ " " ++ shown (statusText a)
            | None => message
            end in
          let message :=
            match error a with
            | Some e =>
                if truthy e
                then message ++ nl ++ "  Error: " ++
                     match e with
                     | VObj _ | VArr _ | VError _ _ _ => stringifyIndent2 B e
                     | _ => toString B e
                     end
                else message
            | None => message
            end in
          if truthyString (stack a)
          then message ++ nl ++ "  Stack: " ++ shown (stack a)
          else message
      | None => message
      end in
    Some message
  else None.

(** [traces.forEach(...)]: the calls of [console.error] made, and the
    exception that stopped the loop, if one did. *)
Fixpoint forEachTrace (traces : list TraceEvent) (out : list ConsoleError)
    : list ConsoleError * option Failure :=
  match traces with
  | [] => (out, None)
  | trace :: rest =>
      if startsWith "Supabase." (name trace) then
        match formatSupabaseError trace with
        | Some message => forEachTrace rest (out ++ [SupabaseError message])%list
        | None => (out, Some RangeError)
        end
      else forEachTrace rest out
  end.

(** [POST]: the calls of [console.error] in order, and the response. *)
Definition POST (body : RequestBody) : list ConsoleError * NextResponse :=
  let caught error out :=
    ((out ++ [ErrorProcessingTraces error])%list, invalidResponse) in
  match body with
  | NotJson => caught SyntaxError []
  | NotArray _ => caught TypeError []
  | TraceArray traces =>
      match forEachTrace traces [] with
      | (out, None) => (out, okResponse)
      | (out, Some error) => caught error out
      end
  end.

End Handler.

(** The events [formatSupabaseError] is called on. *)
Definition fromSupabase (trace : TraceEvent) : bool :=
  startsWith "Supabase." (name trace).

(** The events marked as errors. *)
Definition isError (trace : TraceEvent) : bool :=
  match level trace with
  | Some l => String.eqb l "error"
  | None => false
  end.

(** The calls of [console.error] that print a formatted event. *)
Definition diagnostics (out : list ConsoleError) : list ConsoleError :=
  filter (fun c => match c with SupabaseError _ => true | _ => false end) out.

End TracesRoute.

(** ** environment.ts: the logger in use *)

Module LoggerUse.

(** What callers do with the logger: [log], [clearLogs], [getLogs]. *)
Inductive Operation : Type :=
| LogOp (call : LogCall)
| ClearOp
| QueryOp (limit : option Z) (level_ : option LogLevel).

Section Runs.

Context (B : Builtins).

Definition perform (env : ProcessEnv) (st : State) (op : Operation) : State :=
  match op with
  | LogOp call => logCall B env st call
  | ClearOp => clearLogs st
  | QueryOp limit level_ => snd (getLogs limit level_ st)
  end.

(** A run of operations, first operation first. *)
Definition performAll (env : ProcessEnv) (ops : list Operation) (st : State)
    : State :=
  fold_left (perform env) ops st.

(** *** [trackRealtimeChannel] *)

(** The channels are values of a type of their own. *)
Context (Channel : Type).




(** The function handed to [channel.subscribe] (lines 196-201); [now] is the
    [Date.now()] of the entry. *)
Definition statusCallback (env : ProcessEnv) (channelName : string)
    (st : State) (event : float * string) : State :=
  let '(now, status) := event in
  log B env now Info "realtime.status"
    (Some [("channel", VStr channelName); ("status", VStr status)])
    VUndefined None st.


(** The channel reporting a run of statuses, each with the time it is
    logged at. *)
Definition reportAll (env : ProcessEnv) (channelName : string)
    (events : list (float * string)) (st : State) : State :=
  fold_left (statusCallback env channelName) events st.

(** The call of [log] a status makes. *)
Definition statusCall (channelName : string) (event : float * string)
    : LogCall :=
  {| callNow := fst event;
     callLevel := Info;
     callOperation := "realtime.status";
     callDetails :=
       Some [("channel", VStr channelName); ("status", VStr (snd event))];
     callError := VUndefined;
     callDuration := None |}.

End Runs.

(** [sanitizeLogDetails] on an object, as one pass over its entries. *)
Definition keptEntry (env : ProcessEnv) (entry : string * JsValue)
    : list (string * JsValue) :=
  if (negb (startsWith "_" (fst entry)) && negb (nullish (snd entry)))%bool
  then [(fst entry,
         if (isProduction env && sensitiveKey (fst entry))%bool
         then REDACTED else snd entry)]
  else [].

(** What holds of every entry of an object under construction by the loop of
    [sanitizeLogDetails]. *)
Definition clean (env : ProcessEnv) (details : LogDetails)
    (entry : string * JsValue) : Prop :=
  startsWith "_" (fst entry) = false /\
  nullish (snd entry) = false /\
  (isProduction env = true -> sensitiveKey (fst entry) = true ->
   snd entry = REDACTED) /\
  (exists v0, In (fst entry, v0) details /\
              (snd entry = v0 \/ snd entry = REDACTED)).

End LoggerUse.

(** ** instrumentation.ts: the replacement of [console.error] *)

Module ConsoleTap.

Import Instrumentation.

Section Console.

Context (Net : Type).
Context (originalFetch :
           RequestInfo -> option RequestInit -> Net -> FetchResult * Net).
Context (B : Builtins).

(** The page and what the browser's own [console.error] has printed, each
    call with its arguments. *)
Record Browser : Type := {
  page : Page Net;
  printed : list (list JsValue)
}.

(** [args.join(" ")]. *)
Definition joinArgs (args : list JsValue) : string :=
  join " " (map (fun v => if nullish v then "" else toString B v) args).

(** [typeof arg === "object" ? JSON.stringify(arg) : String(arg)]. *)
Definition argText (arg : JsValue) : JsValue :=
  match arg with
  | VNull | VArr _ | VObj _ | VError _ _ _ => VStr (stringify B arg)
  | _ => VStr (toString B arg)
  end.

Definition forward (log : Fields) (clk : Clock) (b : Browser) : Browser :=
  {| page := sendToServer B (windowFetch originalFetch B) log clk (page b);
     printed := printed b |}.

(** The function assigned to [console.error] (lines 193-209). *)
Definition replacedConsoleError (args : list JsValue) (clk : Clock)
    (b : Browser) : Browser :=
  let errorString := joinArgs args in
  if includes "supabase.co" errorString then
    forward [("name", VStr "Supabase.consoleError");
             ("level", VStr "error");
             ("attributes",
              VObj [("message", VStr errorString);
                    ("arguments", VArr (map argText args))])]
      clk b
  else {| page := page b; printed := (printed b ++ [args])%list |}.

(** The [error] of [safeConsole] (lines 216-230); its target is the console
    whose [error] was replaced. *)
Definition safeConsoleError (args : list JsValue) (clk : Clock)
    (b : Browser) : Browser :=
  let errorString := joinArgs args in
  if includes "supabase.co" errorString then
    forward [("name", VStr "Supabase.consoleError");
             ("level", VStr "error");
             ("attributes",
              VObj [("message", VStr errorString);
                    ("arguments", VArr args)])]
      clk b
  else replacedConsoleError args clk b.

(** [console.error(...args)] after [register]: through the proxies a failed
    call to the backend has put around [console], whose [error] does
    nothing, or else through [safeConsole]. *)
Definition consoleError (args : list JsValue) (clk : Clock) (b : Browser)
    : Browser :=
  match consoleProxies (page b) with
  | O => safeConsoleError args clk b
  | S _ => b
  end.

(** [fetch(input, init)] by the page. *)
Definition browserFetch (input : RequestInfo) (init : option RequestInit)
    (clk : Clock) (b : Browser) : FetchResult * Browser :=
  let '(result, page') := windowFetch originalFetch B input init clk (page b) in
  (result, {| page := page'; printed := printed b |}).

End Console.

(** A response or a rejection is a failure the tap reports. *)
Definition reported (result : FetchResult) : bool :=
  match result with
  | Resolves response => negb (ok response)
  | Rejects _ => true
  end.

End ConsoleTap.

(** ** api/auth-logs/route.ts: the proxy to the platform's log API *)

Module AuthLogsRoute.

(** The part of [process.env] the handler reads. *)
Record RouteEnv : Type := {
  NEXT_PUBLIC_SUPABASE_PROJECT_ID : option string;
  SUPABASE_ACCESS_TOKEN : option string;
  nodeEnv : ProcessEnv
}.

(** [request.nextUrl.searchParams]: what [get] returns for the three names,
    [None] for [null]. *)
Record SearchParams : Type := {
  start : option string;
  end_ : option string;
  sql : option string
}.

(** The response of the platform: [json] is how [response.json()] settles. *)
Record Upstream : Type := {
  ok : bool;
  status : float;
  statusText : string;
  text : string;
  json : Settled
}.

Inductive UpstreamResult : Type :=
| Answers (response : Upstream)
| Fails (error : JsValue).

(** A call of [console.log] or [console.error], with its arguments. *)
Inductive ConsoleCall : Type :=
| ConsoleLog (label : string) (value : JsValue)
| ConsoleErr (label : string) (value : JsValue).

Record NextResponse : Type := {
  responseStatus : nat;
  responseBody : JsValue
}.

(** What the host supplies: the serialisation of [URLSearchParams] with at
    least one entry, the message of the [TypeError] for a property read on
    [null] or [undefined], and the stack given to a new [Error]. *)
Record Host : Type := {
  encodeParams : list (string * string) -> string;
  typeErrorMessage : string;
  newStack : option string
}.

Section Handler.

Context (Net : Type).
Context (fetch : string -> list (string * string) -> Net -> UpstreamResult * Net).
Context (B : Builtins).
Context (H : Host).

Definition truthyVar (o : option string) : bool :=
  match o with
  | Some s => negb (String.eqb s "")
  | None => false
  end.

(** [...(value && { name: value })]. *)
Definition spreadParam (name : string) (value : option string)
    : list (string * string) :=
  match value with
  | Some v => if String.eqb v "" then [] else [(name, v)]
  | None => []
  end.

(** The entries of [params] (lines 23-27). *)
Definition paramsOf (q : SearchParams) : list (string * string) :=
  (spreadParam "iso_timestamp_start" (start q) ++
   spreadParam "iso_timestamp_end" (end_ q) ++
   spreadParam "sql" (sql q))%list.

(** [params.toString() ? `?${params}` : ""]; the text of no entries is
    empty. *)
Definition queryOf (q : SearchParams) : string :=
  match paramsOf q with
  | [] => ""
  | entries => "?" ++ encodeParams H entries
  end.

(** The address of line 30. *)
Definition urlOf (projectId : string) (q : SearchParams) : string :=
  "https://api.supabase.com/v1/projects/" ++ projectId ++
  "/analytics/endpoints/logs.all" ++ queryOf q.

(** [new Error(message)]. *)
Definition newError (message : string) : JsValue :=
  VError message (newStack H) [].

Definition missingVariables : string :=
  "Missing environment variables: NEXT_PUBLIC_SUPABASE_PROJECT_ID or SUPABASE_ACCESS_TOKEN".

(** The [catch] block (lines 62-72). *)
Definition caught (env : RouteEnv) (error : JsValue) (net : Net)
    (out : list ConsoleCall) : NextResponse * Net * list ConsoleCall :=
  ({| responseStatus := 500;
      responseBody :=
        VObj [("error",
               VStr match error with
                    | VError message _ _ => message
                    | _ => "Failed to fetch auth logs"
                    end);
              ("details",
               if isDevelopment (nodeEnv env) then error else VUndefined)] |},
   net,
   (out ++ [ConsoleErr "Error fetching auth logs:" error])%list).

(** [data.error.message || "Unknown error from Supabase API"], as the
    message of the new [Error]. *)
Definition upstreamErrorMessage (error : JsValue) : string :=
  let message := getProp error "message" in
  if truthy message then toString B message
  else "Unknown error from Supabase API".

(** [GET]: the response, the network after the call, and the calls of
    [console.log] and [console.error] in order. *)
Definition GET (env : RouteEnv) (q : SearchParams) (net : Net)
    : NextResponse * Net * list ConsoleCall :=
  match NEXT_PUBLIC_SUPABASE_PROJECT_ID env, SUPABASE_ACCESS_TOKEN env with
  | Some projectId, Some accessToken =>
      if (String.eqb projectId "" || String.eqb accessToken "")%bool then
        ({| responseStatus := 500;
            responseBody := VObj [("error", VStr missingVariables)] |},
         net, [])
      else
        let url := urlOf projectId q in
        let out := [ConsoleLog "Fetching logs from:" (VStr url)] in
        match fetch url [("Authorization", "Bearer " ++ accessToken)] net with
        | (Fails error, net) => caught env error net out
        | (Answers response, net) =>
            if negb (ok response) then
              caught env
                (newError ("Supabase API error: " ++
                           numberToString B (status response) ++ " " ++
                           statusText response))
                net
                (out ++ [ConsoleErr "Supabase API error:"
                           (VObj [("status", VNum (status response));
                                  ("statusText", VStr (statusText response));
                                  ("body", VStr (text response))])])%list
            else
              match json response with
              | Rejected error => caught env error net out
              | Fulfilled data =>
                  if nullish data then
                    caught env (VError (typeErrorMessage H) (newStack H) [])
                      net out
                  else if truthy (getProp data "error") then
                    caught env
                      (newError (upstreamErrorMessage (getProp data "error")))
                      net out
                  else
                    ({| responseStatus := 200; responseBody := data |},
                     net, out)
              end
        end
  | _, _ =>
      ({| responseStatus := 500;
          responseBody := VObj [("error", VStr missingVariables)] |},
       net, [])
  end.

End Handler.

(** The call the handler makes when both variables are set. *)
Definition answerOf {Net : Type}
    (fetch : string -> list (string * string) -> Net -> UpstreamResult * Net)
    (H : Host) (projectId accessToken : string) (q : SearchParams)
    (net : Net) : UpstreamResult * Net :=
  fetch (urlOf H projectId q)
    [("Authorization", "Bearer " ++ accessToken)] net.

(** The platform answered with data that names no error. *)
Definition succeeds (result : UpstreamResult) : option JsValue :=
  match result with
  | Answers response =>
      if ok response then
        match json response with
        | Fulfilled data =>
            if (nullish data || truthy (getProp data "error"))%bool
            then None else Some data
        | Rejected _ => None
        end
      else None
  | Fails _ => None
  end.

End AuthLogsRoute.

(** ** Concrete inputs used by the examples *)

Module Samples.

Definition envOf (nodeEnv vercelEnv : option string) : ProcessEnv :=
  {| NODE_ENV := nodeEnv;
     NEXT_PUBLIC_VERCEL_ENV := vercelEnv;
     NEXT_RUNTIME := None |}.

Definition devEnv : ProcessEnv := envOf (Some "development") None.
Definition prodEnv : ProcessEnv := envOf (Some "production") None.
Definition testEnv : ProcessEnv := envOf (Some "test") None.

(** A server of a preview deployment. *)
Definition previewServer : Ambient :=
  {| hostname := None; processEnv := envOf (Some "production") (Some "preview") |}.

(** A server under a test runner. *)
Definition testServer : Ambient :=
  {| hostname := None; processEnv := testEnv |}.

(** A development server that carries the platform variable of a preview
    deployment. *)
Definition previewDevServer : Ambient :=
  {| hostname := None;
     processEnv := envOf (Some "development") (Some "preview") |}.

(** A browser on the developer's machine. *)
Definition localBrowser : Ambient :=
  {| hostname := Some "localhost"; processEnv := devEnv |}.

(** Renderers that print nothing: what they print plays no part in the
    examples. *)
Definition plainBuiltins : Builtins :=
  {| toISOString := fun _ => "";
     toFixed2 := fun _ => "";
     numberToString := fun _ => "";
     stringify := fun _ => "";
     stringifyIndent2 := fun _ => "";
     objectToString := fun _ => "";
     replaceSupabaseHost := fun s _ => s |}.

(** A call of [log] and a run of 1001 of them. *)
Definition sampleCall : LogCall :=
  {| callNow := 1700000000000%float;
     callLevel := Info;
     callOperation := "from";
     callDetails := Some [("table", VStr "profiles")];
     callError := VUndefined;
     callDuration := Some 12.5%float |}.

Definition manyCalls : list LogCall := repeat sampleCall 1001.

(** An entry with a given time stamp and level. *)
Definition entryAt (t : float) (l : LogLevel) : SupabaseLog :=
  {| timestamp := t; level := l; operation := "rpc"; details := None;
     duration := None; error := None; environment := "development" |}.

Definition sampleStore : State :=
  {| logs := [entryAt 300 Error; entryAt 200 Info; entryAt 100 Error];
     console := [] |}.

(** Details with a secret, an internal property and an empty value. *)
Definition sampleDetails : LogDetails :=
  [("user", VStr "ada"); ("access_token", VStr "eyJhbGciOi");
   ("_internal", VNum 1); ("note", VNull)].

(** A client with a method that fulfils, one that rejects, one that returns
    at once, and a property that is not a function. *)
Definition selectResult : JsValue :=
  VObj [("data", VArr [VNum 1]); ("error", VNull)].

Definition rpcFailure : JsValue :=
  VError "fetch failed" (Some "at rpc (client.js:1:1)") [("code", VNum 503)].

Definition sampleClient : Client :=
  fun prop =>
    if String.eqb prop "select" then
      Method (fun _ _ _ st => (Promised (Fulfilled selectResult), st))
    else if String.eqb prop "rpc" then
      Method (fun _ _ _ st => (Promised (Rejected rpcFailure), st))
    else if String.eqb prop "channel" then
      Method (fun _ _ _ st => (Returned (VStr "realtime:room"), st))
    else Data (VStr "https://project.supabase.co").

(** A clock that advances by 2.5 ms during the call, and one whose two
    readings are the same. *)
Definition tickingClock : Clock :=
  {| perfStart := 5; perfEnd := 7.5; dateNow := 1700000000000 |}.

Definition stillClock : Clock :=
  {| perfStart := 5; perfEnd := 5; dateNow := 1700000000000 |}.

(** A network that lists the calls it gets and answers each with 200. *)
Definition CallLog : Type :=
  list (Instrumentation.RequestInfo * option Instrumentation.RequestInit).

Definition recordingFetch (input : Instrumentation.RequestInfo)
    (init : option Instrumentation.RequestInit) (calls : CallLog)
    : Instrumentation.FetchResult * CallLog :=
  (Instrumentation.Resolves
     {| Instrumentation.ok := true;
        Instrumentation.status := 200;
        Instrumentation.statusText := "OK";
        Instrumentation.contentType := None;
        Instrumentation.json := None |},
   (calls ++ [(input, init)])%list).

Definition freshPage : Instrumentation.Page CallLog :=
  {| Instrumentation.net := []; Instrumentation.consoleProxies := 0 |}.

(** Trace events: an error forwarded by the tap, an event of another origin,
    an event named after the backend that is not an error, and an error
    stamped beyond the range of dates. *)
Definition traceOf (name : string) (level : option string) (t : float)
    : TracesRoute.TraceEvent :=
  {| TracesRoute.name := name;
     TracesRoute.duration := None;
     TracesRoute.attributes := None;
     TracesRoute.level := level;
     TracesRoute.environment := TracesRoute.client;
     TracesRoute.timestamp := t |}.

Definition tapError : TracesRoute.TraceEvent :=
  traceOf "Supabase.error" (Some "error") 1700000000000.

Definition pageView : TracesRoute.TraceEvent :=
  traceOf "page.view" (Some "info") 1700000000000.

Definition queryInfo : TracesRoute.TraceEvent :=
  traceOf "Supabase.query" (Some "info") 1700000000000.

Definition farFutureError : TracesRoute.TraceEvent :=
  traceOf "Supabase.error" (Some "error") 1e16.

End Samples.

Import Samples.

(** ** Concrete inputs used by the examples of Part III *)

Module UseSamples.

(** Two statuses of a channel and the times they are logged at. *)
Definition statusEvents : list (float * string) :=
  [(1700000000000%float, "SUBSCRIBED"); (1700000000500%float, "CLOSED")].


(** An entry whose details hold an internal property and an empty value. *)
Definition entryWithDetails : SupabaseLog :=
  {| timestamp := 1700000000000;
     level := Info;
     operation := "select";
     details := Some sampleDetails;
     duration := None;
     error := None;
     environment := "development" |}.

(** A network that lists the calls it gets and answers those to the backend
    with 500 and the others with 200. *)
Definition failingBackend (input : Instrumentation.RequestInfo)
    (init : option Instrumentation.RequestInit) (calls : CallLog)
    : Instrumentation.FetchResult * CallLog :=
  (Instrumentation.Resolves
     {| Instrumentation.ok :=
          negb (includes "supabase.co" (Instrumentation.urlOf input));
        Instrumentation.status := 500;
        Instrumentation.statusText := "Internal Server Error";
        Instrumentation.contentType := None;
        Instrumentation.json := None |},
   (calls ++ [(input, init)])%list).

Definition backendCall : Instrumentation.RequestInfo :=
  Instrumentation.InputString "https://abc.supabase.co/rest/v1/profiles".

Definition freshBrowser : ConsoleTap.Browser CallLog :=
  {| ConsoleTap.page := freshPage; ConsoleTap.printed := [] |}.

(** Renderers that print strings as they are. *)
Definition echoBuiltins : Builtins :=
  {| toISOString := fun _ => "";
     toFixed2 := fun _ => "";
     numberToString := fun _ => "500";
     stringify := fun _ => "";
     stringifyIndent2 := fun _ => "";
     objectToString := fun _ => "[object Object]";
     replaceSupabaseHost := fun s _ => s |}.

(** The platform: a network that lists the addresses called, answering
    with an empty result, or with 401. *)
Definition platformData : JsValue := VObj [("result", VArr [])].

Definition platformOk (url : string) (headers : list (string * string))
    (calls : list string) : AuthLogsRoute.UpstreamResult * list string :=
  (AuthLogsRoute.Answers
     {| AuthLogsRoute.ok := true;
        AuthLogsRoute.status := 200;
        AuthLogsRoute.statusText := "OK";
        AuthLogsRoute.text := "";
        AuthLogsRoute.json := Fulfilled platformData |},
   (calls ++ [url])%list).

Definition unauthorized : AuthLogsRoute.Upstream :=
  {| AuthLogsRoute.ok := false;
     AuthLogsRoute.status := 401;
     AuthLogsRoute.statusText := "Unauthorized";
     AuthLogsRoute.text := "JWT expired";
     AuthLogsRoute.json := Fulfilled VNull |}.

Definition platformDenies (url : string) (headers : list (string * string))
    (calls : list string) : AuthLogsRoute.UpstreamResult * list string :=
  (AuthLogsRoute.Answers unauthorized, (calls ++ [url])%list).

Definition plainHost : AuthLogsRoute.Host :=
  {| AuthLogsRoute.encodeParams :=
       fun entries => join "&" (map (fun e => fst e ++ "=" ++ snd e) entries);
     AuthLogsRoute.typeErrorMessage := "Cannot read properties of null";
     AuthLogsRoute.newStack := None |}.

Definition routeEnv (nodeEnv : ProcessEnv) : AuthLogsRoute.RouteEnv :=
  {| AuthLogsRoute.NEXT_PUBLIC_SUPABASE_PROJECT_ID := Some "abc";
     AuthLogsRoute.SUPABASE_ACCESS_TOKEN := Some "sbp_1";
     AuthLogsRoute.nodeEnv := nodeEnv |}.

Definition routeEnvWithoutToken : AuthLogsRoute.RouteEnv :=
  {| AuthLogsRoute.NEXT_PUBLIC_SUPABASE_PROJECT_ID := Some "abc";
     AuthLogsRoute.SUPABASE_ACCESS_TOKEN := None;
     AuthLogsRoute.nodeEnv := prodEnv |}.

Definition lastHour : AuthLogsRoute.SearchParams :=
  {| AuthLogsRoute.start := Some "2024-01-01T00:00:00Z";
     AuthLogsRoute.end_ := None;
     AuthLogsRoute.sql := Some "" |}.

End UseSamples.

Import UseSamples.

(* ================================================================== *)
(** * Part II: properties                                              *)
(* ================================================================== *)

Open Scope list_scope.
Unset Implicit Arguments.

(** ** The environment classifier *)

Module EnvironmentSpec.

Lemma orElse_unset (a : option string) (b : string) :
  a = None \/ a = Some "" -> orElse a b = b.
Proof. intros [-> | ->]; reflexivity. Qed.

Lemma orElse_set (s b : string) : s <> "" -> orElse (Some s) b = s.
Proof.
  intros Hs. unfold orElse.
  destruct (String.eqb_spec s ""); [contradiction | reflexivity].
Qed.

Lemma orElse_label (a : option string) (b : string) :
  labelOrUnset a = true -> isEnvironment b = true ->
  isEnvironment (orElse a b) = true.
Proof.
  destruct a as [s|]; simpl; [|trivial].
  destruct (String.eqb s ""); simpl; trivial.
Qed.

(** C9, as stated, fails: under a test runner [NODE_ENV] is ["test"], and a
    server-side call returns that string, which is none of the three
    labels. *)
Lemma getEnvironment_returns_test :
  getEnvironment testServer = "test" /\
  isEnvironment (getEnvironment testServer) = false.
Proof. split; reflexivity. Qed.

(** C9, amended: on a server-side context [getEnvironment] returns the
    platform deployment variable when it is set and not empty, else the
    runtime-mode variable when it is set and not empty, else development; the
    string is returned as read, so the result is one of development, preview
    and production provided each variable is unset, empty or one of these
    labels.  On a client-side context it returns development if and only if
    the hostname is localhost, and production otherwise. *)
Theorem getEnvironment_classifies (a : Ambient) :
  (hostname a = None ->
     (forall v, NEXT_PUBLIC_VERCEL_ENV (processEnv a) = Some v -> v <> "" ->
                getEnvironment a = v) /\
     (forall n, NEXT_PUBLIC_VERCEL_ENV (processEnv a) = None \/
                NEXT_PUBLIC_VERCEL_ENV (processEnv a) = Some "" ->
                NODE_ENV (processEnv a) = Some n -> n <> "" ->
                getEnvironment a = n) /\
     (NEXT_PUBLIC_VERCEL_ENV (processEnv a) = None \/
      NEXT_PUBLIC_VERCEL_ENV (processEnv a) = Some "" ->
      NODE_ENV (processEnv a) = None \/ NODE_ENV (processEnv a) = Some "" ->
      getEnvironment a = "development") /\
     (labelOrUnset (NEXT_PUBLIC_VERCEL_ENV (processEnv a)) = true ->
      labelOrUnset (NODE_ENV (processEnv a)) = true ->
      isEnvironment (getEnvironment a) = true)) /\
  (forall h, hostname a = Some h ->
     (getEnvironment a = "development" <-> h = "localhost") /\
     (h <> "localhost" -> getEnvironment a = "production") /\
     isEnvironment (getEnvironment a) = true).
Proof.
  unfold getEnvironment. split.
  - intros ->. repeat split.
    + intros v -> Hv. now apply orElse_set.
    + intros n Hv -> Hn. rewrite (orElse_unset _ _ Hv). now apply orElse_set.
    + intros Hv Hn. rewrite (orElse_unset _ _ Hv). now apply orElse_unset.
    + intros Hv Hn. apply orElse_label; [assumption|].
      now apply orElse_label.
  - intros h ->. destruct (String.eqb_spec h "localhost") as [-> | Hne].
    + repeat split; trivial. intros H; now elim H.
    + repeat split; trivial; try discriminate. intros H; contradiction.
Qed.

Lemma getEnvironment_classifies_witness :
  getEnvironment previewServer = "preview" /\
  getEnvironment localBrowser = "development".
Proof.
  split.
  - apply (proj1 (proj1 (getEnvironment_classifies previewServer) eq_refl)
             "preview").
    + reflexivity.
    + discriminate.
  - apply (proj1 (proj2 (getEnvironment_classifies localBrowser)
                    "localhost" eq_refl)).
    reflexivity.
Defined.

End EnvironmentSpec.

(** ** The in-memory store *)

Module StoreSpec.

Section Store.

Context (B : Builtins).

(** One insertion keeps the newest [MAX_LOGS] entries. *)
Lemma push_firstn (entry : SupabaseLog) (store : list SupabaseLog) :
  List.length store <= MAX_LOGS ->
  push entry store = firstn MAX_LOGS (entry :: store).
Proof.
  intros Hlen. unfold push.
  destruct (Nat.ltb_spec MAX_LOGS (List.length (entry :: store))) as [Hgt | Hle].
  - rewrite removelast_firstn_len.
    replace (Nat.pred (List.length (entry :: store))) with MAX_LOGS;
      [reflexivity|].
    change (List.length (entry :: store)) with (S (List.length store)) in *.
    lia.
  - symmetry. now apply firstn_all2.
Qed.

Lemma push_length (entry : SupabaseLog) (store : list SupabaseLog) :
  List.length store <= MAX_LOGS ->
  List.length (push entry store) = Nat.min MAX_LOGS (S (List.length store)).
Proof.
  intros Hlen. rewrite push_firstn by assumption. now rewrite length_firstn.
Qed.

(** The bound on the store is an invariant of the logger. *)
Lemma log_bounded env now lvl op det err dur st :
  List.length (logs st) <= MAX_LOGS ->
  List.length (logs (log B env now lvl op det err dur st)) <= MAX_LOGS.
Proof.
  intros Hlen. unfold log. destruct (isDevelopment env); [|assumption].
  cbn [logs]. rewrite push_length by assumption. apply Nat.le_min_l.
Qed.

Lemma clearLogs_bounded st : List.length (logs (clearLogs st)) <= MAX_LOGS.
Proof. apply Nat.le_0_l. Qed.

Lemma initial_bounded : List.length (logs initial) <= MAX_LOGS.
Proof. apply Nat.le_0_l. Qed.

Lemma log_logs_development env now lvl op det err dur st :
  isDevelopment env = true ->
  logs (log B env now lvl op det err dur st) =
  push (makeLog B env now lvl op det err dur) (logs st).
Proof. intros Hdev. unfold log. now rewrite Hdev. Qed.

Lemma firstn_app_firstn (A : Type) (n : nat) (xs ys : list A) :
  firstn n (xs ++ firstn n ys) = firstn n (xs ++ ys).
Proof.
  rewrite !firstn_app, firstn_firstn.
  now replace (Nat.min (n - List.length xs) n) with (n - List.length xs) by lia.
Qed.

(** The store after a run of calls: the newest [MAX_LOGS] of the entries
    built, newest first, in front of what was there. *)
Lemma logAll_logs env (calls : list LogCall) : forall st,
  isDevelopment env = true ->
  List.length (logs st) <= MAX_LOGS ->
  logs (logAll B env calls st) =
  firstn MAX_LOGS (rev (map (entryOf B env) calls) ++ logs st).
Proof.
  induction calls as [|c calls IH]; intros st Hdev Hlen.
  - symmetry. now apply firstn_all2.
  - change (logAll B env (c :: calls) st)
      with (logAll B env calls (logCall B env st c)).
    assert (Hstep : logs (logCall B env st c) =
                    firstn MAX_LOGS (entryOf B env c :: logs st)).
    { unfold logCall. rewrite log_logs_development by assumption.
      now apply push_firstn. }
    rewrite IH; [|assumption|rewrite Hstep; apply firstn_le_length].
    rewrite Hstep, firstn_app_firstn.
    change (map (entryOf B env) (c :: calls))
      with (entryOf B env c :: map (entryOf B env) calls).
    change (rev (entryOf B env c :: map (entryOf B env) calls))
      with (rev (map (entryOf B env) calls) ++ [entryOf B env c]).
    now rewrite <- app_assoc.
Qed.

(** C1: in development, after more than [MAX_LOGS] calls of [log] the store
    holds exactly [MAX_LOGS] entries, and they are the entries of the last
    [MAX_LOGS] calls, the newest first. *)
Theorem log_keeps_last_MAX_LOGS env (calls : list LogCall) (st : State) :
  isDevelopment env = true ->
  List.length (logs st) <= MAX_LOGS ->
  MAX_LOGS < List.length calls ->
  List.length (logs (logAll B env calls st)) = MAX_LOGS /\
  logs (logAll B env calls st) =
  rev (lastn MAX_LOGS (map (entryOf B env) calls)).
Proof.
  intros Hdev Hlen Hmany.
  assert (Hlogs : logs (logAll B env calls st) =
                  rev (lastn MAX_LOGS (map (entryOf B env) calls))).
  { rewrite logAll_logs by assumption.
    rewrite firstn_app, length_rev, length_map.
    replace (MAX_LOGS - List.length calls) with 0 by lia.
    rewrite firstn_O, app_nil_r. apply firstn_rev. }
  split; [|exact Hlogs].
  rewrite Hlogs. unfold lastn.
  rewrite length_rev, length_skipn, length_map. lia.
Qed.

End Store.

(** The specification's example: entries stamped 100, 200, 300 in that order,
    then a query with limit 2, give the entries stamped 300 and 200. *)
Example log_then_getLogs :
  let call t := {| callNow := t; callLevel := Info; callOperation := "rpc";
                   callDetails := None; callError := VUndefined;
                   callDuration := None |} in
  map (@timestamp)
    (fst (getLogs (Some 2%Z) None
            (logAll plainBuiltins devEnv
               [call 100%float; call 200%float; call 300%float] initial))) =
  [300%float; 200%float].
Proof. reflexivity. Qed.

Lemma log_keeps_last_MAX_LOGS_witness :
  List.length (logs (logAll plainBuiltins devEnv manyCalls initial)) = MAX_LOGS /\
  logs (logAll plainBuiltins devEnv manyCalls initial) =
  rev (lastn MAX_LOGS (map (entryOf plainBuiltins devEnv) manyCalls)).
Proof.
  apply log_keeps_last_MAX_LOGS.
  - reflexivity.
  - apply Nat.leb_le. vm_compute. reflexivity.
  - apply Nat.ltb_lt. vm_compute. reflexivity.
Defined.

(** ** The gate on the environment, and falsy durations *)

Section Gate.

Context (B : Builtins).

(** The logger does not call [getEnvironment]; it tests [NODE_ENV].  On a
    server without the platform variable the two agree on what is not
    development. *)
Lemma not_development_on_server (a : Ambient) :
  hostname a = None ->
  NEXT_PUBLIC_VERCEL_ENV (processEnv a) = None ->
  getEnvironment a <> "development" ->
  isDevelopment (processEnv a) = false.
Proof.
  unfold getEnvironment, isDevelopment, nodeEnvIs. intros -> -> Hne.
  cbn [orElse] in Hne.
  destruct (NODE_ENV (processEnv a)) as [s|]; [|reflexivity].
  destruct (String.eqb_spec s "development") as [-> | _]; [|reflexivity].
  now elim Hne.
Qed.

(** C5, amended: when [process.env.NODE_ENV] is not development, which is
    the test the logger makes (it does not ask [getEnvironment]),
    [wrapClient] gives back the client it was given, and [log] leaves the
    store and the console as they were: nothing is appended and [formatLog]
    is not called (the entry, with [formatError] applied to the error, is
    built and dropped). *)
Theorem inert_outside_development env :
  isDevelopment env = false ->
  (forall client, wrapClient B env client = client) /\
  (forall now lvl op det err dur st,
     log B env now lvl op det err dur st = st).
Proof.
  intros Hdev. split.
  - intros client. unfold wrapClient. now rewrite Hdev.
  - intros. unfold log. now rewrite Hdev.
Qed.

(** C10: in development, a call of [log] whose duration argument is zero
    stores an entry without a duration, the entry a call without the argument
    stores: the two calls leave the same store and print the same line. *)
Theorem log_zero_duration_absent env now lvl op det err (d : float) st :
  isDevelopment env = true ->
  PrimFloat.eqb d 0 = true ->
  duration (makeLog B env now lvl op det err (Some d)) = None /\
  logs (log B env now lvl op det err (Some d) st) =
    push (makeLog B env now lvl op det err (Some d)) (logs st) /\
  log B env now lvl op det err (Some d) st =
    log B env now lvl op det err None st.
Proof.
  intros Hdev Hzero.
  assert (Hentry : makeLog B env now lvl op det err (Some d) =
                   makeLog B env now lvl op det err None).
  { unfold makeLog, falsyNumber. now rewrite Hzero. }
  repeat split.
  - now rewrite Hentry.
  - now apply log_logs_development.
  - unfold log. now rewrite Hentry.
Qed.

End Gate.

(** C5, as stated, fails: on a development server that carries the platform
    variable of a preview deployment the classified environment is preview,
    not development, and yet [log] appends an entry and prints a line, and
    the wrapped client is not the client: a call of its method stores an
    entry. *)
Lemma active_when_classified_preview :
  getEnvironment previewDevServer = "preview"%string /\
  getEnvironment previewDevServer <> "development"%string /\
  List.length
    (logs (log plainBuiltins (processEnv previewDevServer) 5 Info "from" None
             VUndefined None initial)) = 1 /\
  List.length
    (console (log plainBuiltins (processEnv previewDevServer) 5 Info "from"
                None VUndefined None initial)) = 1 /\
  List.length
    (logs (snd (invoke (wrapClient plainBuiltins (processEnv previewDevServer)
                          sampleClient)
                  "select" VUndefined [] tickingClock initial))) = 1 /\
  List.length
    (logs (snd (invoke sampleClient "select" VUndefined [] tickingClock
                  initial))) = 0 /\
  wrapClient plainBuiltins (processEnv previewDevServer) sampleClient <>
    sampleClient.
Proof.
  repeat split; try discriminate.
  intros Hsame.
  assert (Hlen : List.length
            (logs (snd (invoke (wrapClient plainBuiltins
                                  (processEnv previewDevServer) sampleClient)
                          "select" VUndefined [] tickingClock initial))) = 1)
    by reflexivity.
  rewrite Hsame in Hlen. discriminate Hlen.
Qed.

Lemma inert_outside_development_witness :
  (forall client, wrapClient plainBuiltins prodEnv client = client) /\
  (forall now lvl op det err dur st,
     log plainBuiltins prodEnv now lvl op det err dur st = st).
Proof. apply inert_outside_development. reflexivity. Defined.

Lemma log_zero_duration_absent_witness :
  duration (makeLog plainBuiltins devEnv 5 Info "from" None VUndefined
              (Some 0%float)) = None /\
  logs (log plainBuiltins devEnv 5 Info "from" None VUndefined
          (Some 0%float) initial) =
    push (makeLog plainBuiltins devEnv 5 Info "from" None VUndefined
            (Some 0%float)) (logs initial) /\
  log plainBuiltins devEnv 5 Info "from" None VUndefined (Some 0%float) initial =
    log plainBuiltins devEnv 5 Info "from" None VUndefined None initial.
Proof. apply log_zero_duration_absent; reflexivity. Defined.

(** ** The query *)

Lemma In_firstn (A : Type) (n : nat) (x : A) (xs : list A) :
  In x (firstn n xs) -> In x xs.
Proof.
  intros Hin. rewrite <- (firstn_skipn n xs). apply in_or_app. now left.
Qed.

Lemma slice0_firstn (A : Type) (n : Z) (xs : list A) :
  (0 <= n)%Z -> slice0 n xs = firstn (Z.to_nat n) xs.
Proof.
  intros Hn. unfold slice0.
  destruct (Z.ltb_spec n 0) as [Hneg | _]; [lia|].
  destruct (Z.le_gt_cases n (Z.of_nat (List.length xs))) as [Hle | Hgt].
  - now rewrite Z.min_l.
  - rewrite Z.min_r by lia. rewrite Nat2Z.id.
    rewrite !firstn_all2; trivial. lia.
Qed.

Lemma LogLevel_eqb_eq (a b : LogLevel) : LogLevel_eqb a b = true -> a = b.
Proof. destruct a, b; simpl; congruence. Qed.

(** C8: [getLogs] returns, in the store's order, the first [limit] of the
    entries whose level is the filter's (of all entries without a filter),
    with 100 for a limit left out, and leaves the store as it was. *)
Theorem getLogs_filters_truncates (n : Z) (level_ : option LogLevel)
    (st : State) :
  (0 <= n)%Z ->
  snd (getLogs (Some n) level_ st) = st /\
  fst (getLogs (Some n) level_ st) =
    firstn (Z.to_nat n)
      match level_ with
      | Some l => filter (fun e => LogLevel_eqb (level e) l) (logs st)
      | None => logs st
      end /\
  (forall l e, level_ = Some l -> In e (fst (getLogs (Some n) level_ st)) ->
               level e = l /\ In e (logs st)) /\
  List.length (fst (getLogs (Some n) level_ st)) <= Z.to_nat n /\
  getLogs None level_ st = getLogs (Some 100%Z) level_ st.
Proof.
  intros Hn.
  assert (Hres : fst (getLogs (Some n) level_ st) =
                 firstn (Z.to_nat n)
                   match level_ with
                   | Some l =>
                       filter (fun e => LogLevel_eqb (level e) l) (logs st)
                   | None => logs st
                   end).
  { unfold getLogs. cbn [fst].
    destruct level_; now apply slice0_firstn. }
  split; [reflexivity|]. split; [exact Hres|]. split; [|split].
  - intros l e -> Hin. rewrite Hres in Hin. apply In_firstn in Hin.
    apply filter_In in Hin as [Hstore Hlevel].
    split; [now apply LogLevel_eqb_eq | exact Hstore].
  - rewrite Hres. apply firstn_le_length.
  - reflexivity.
Qed.

(** With a negative limit [slice] counts from the end of the array. *)
Example getLogs_negative_limit :
  map (@timestamp) (fst (getLogs (Some (-1)%Z) None sampleStore)) =
  [300%float; 200%float].
Proof. reflexivity. Qed.

Lemma getLogs_filters_truncates_witness :
  snd (getLogs (Some 1%Z) (Some Error) sampleStore) = sampleStore /\
  fst (getLogs (Some 1%Z) (Some Error) sampleStore) = [entryAt 300 Error].
Proof.
  destruct (@getLogs_filters_truncates 1 (Some Error) sampleStore)
    as (Hst & Hres & _); [lia|].
  split; [exact Hst | exact Hres].
Defined.

End StoreSpec.

(** ** The sanitizer *)

Module SanitizerSpec.

Lemma lookup_setField (k k' : string) (v : JsValue) (fs : Fields) :
  lookup k (setField k' v fs) =
  if String.eqb k k' then Some v else lookup k fs.
Proof.
  induction fs as [|[k0 v0] fs IH]; simpl.
  - reflexivity.
  - destruct (String.eqb_spec k' k0) as [-> | Hne]; simpl.
    + destruct (String.eqb k k0); reflexivity.
    + rewrite IH. destruct (String.eqb_spec k k0) as [-> | Hne'].
      * destruct (String.eqb_spec k0 k'); congruence.
      * reflexivity.
Qed.

Lemma lookup_absent (k : string) (fs : Fields) :
  ~ In k (map fst fs) -> lookup k fs = None.
Proof.
  induction fs as [|[k0 v0] fs IH]; simpl; intros Hnot.
  - reflexivity.
  - destruct (String.eqb_spec k k0) as [-> | Hne].
    + exfalso. apply Hnot. now left.
    + apply IH. intros Hin. apply Hnot. now right.
Qed.

(** What the loop does with one entry, as a function of the key and the
    value: the value stored under the key, if one is. *)
Lemma lookup_sanitizeEntry env (acc : LogDetails) (k k0 : string)
    (v0 : JsValue) :
  lookup k (sanitizeEntry env acc (k0, v0)) =
  if (String.eqb k k0 && negb (startsWith "_" k0) && negb (nullish v0))%bool
  then Some (if (isProduction env && sensitiveKey k0)%bool
             then REDACTED else v0)
  else lookup k acc.
Proof.
  unfold sanitizeEntry.
  destruct (negb (startsWith "_" k0) && negb (nullish v0))%bool eqn:Hkeep.
  - apply andb_prop in Hkeep as [-> ->]. rewrite !andb_true_r.
    destruct (isProduction env && sensitiveKey k0)%bool;
      apply lookup_setField.
  - rewrite <- andb_assoc, Hkeep, andb_false_r. reflexivity.
Qed.

(** The sanitized object, property by property, for an object (its property
    names are distinct). *)
Lemma lookup_sanitize_fold env (details : LogDetails) :
  forall (acc : LogDetails) (k : string),
  NoDup (map fst details) ->
  lookup k (fold_left (sanitizeEntry env) details acc) =
  match lookup k details with
  | Some v =>
      if (negb (startsWith "_" k) && negb (nullish v))%bool
      then Some (if (isProduction env && sensitiveKey k)%bool
                 then REDACTED else v)
      else lookup k acc
  | None => lookup k acc
  end.
Proof.
  induction details as [|[k0 v0] details IH]; intros acc k Hnodup.
  - reflexivity.
  - simpl in Hnodup. inversion Hnodup as [|? ? Hnotin Hnodup']; subst.
    cbn [fold_left lookup].
    rewrite IH by assumption. rewrite !lookup_sanitizeEntry.
    destruct (String.eqb_spec k k0) as [-> | Hne].
    + rewrite (lookup_absent _ _ Hnotin). reflexivity.
    + reflexivity.
Qed.

Lemma lookup_sanitizeLogDetails env (details : LogDetails) (k : string) :
  NoDup (map fst details) ->
  lookup k (sanitizeLogDetails env details) =
  match lookup k details with
  | Some v =>
      if (negb (startsWith "_" k) && negb (nullish v))%bool
      then Some (if (isProduction env && sensitiveKey k)%bool
                 then REDACTED else v)
      else None
  | None => None
  end.
Proof.
  intros Hnodup. unfold sanitizeLogDetails.
  now rewrite lookup_sanitize_fold.
Qed.

(** C4: for every details object, the sanitized object has no property whose
    name starts with an underscore and none whose value was null, undefined
    or missing; every other property is kept, with the redaction marker as
    its value when [NODE_ENV] is production and the name contains password,
    token, key, secret or session, and with its own value when [NODE_ENV] is
    development. *)
Theorem sanitizeLogDetails_spec env (details : LogDetails) (k : string) :
  NoDup (map fst details) ->
  (startsWith "_" k = true ->
     lookup k (sanitizeLogDetails env details) = None) /\
  (lookup k details = None \/ lookup k details = Some VNull \/
   lookup k details = Some VUndefined ->
     lookup k (sanitizeLogDetails env details) = None) /\
  (forall v, startsWith "_" k = false -> lookup k details = Some v ->
             nullish v = false ->
     (isProduction env = true -> sensitiveKey k = true ->
        lookup k (sanitizeLogDetails env details) = Some REDACTED) /\
     (isProduction env = true -> sensitiveKey k = false ->
        lookup k (sanitizeLogDetails env details) = Some v) /\
     (isDevelopment env = true ->
        lookup k (sanitizeLogDetails env details) = Some v)).
Proof.
  intros Hnodup. rewrite (lookup_sanitizeLogDetails env details k Hnodup).
  split; [|split].
  - intros ->. now destruct (lookup k details).
  - intros [-> | [-> | ->]]; trivial; simpl; now rewrite andb_false_r.
  - intros v Hunder -> Hnull. rewrite Hunder, Hnull. cbn [negb andb].
    repeat split.
    + now intros -> ->.
    + intros -> ->. reflexivity.
    + intros Hdev.
      assert (Hprod : isProduction env = false).
      { unfold isDevelopment, isProduction, nodeEnvIs in *.
        destruct (NODE_ENV env) as [s|]; [|reflexivity].
        apply String.eqb_eq in Hdev. now subst s. }
      now rewrite Hprod.
Qed.

Lemma sampleDetails_distinct : NoDup (map fst sampleDetails).
Proof.
  repeat constructor; simpl; intuition discriminate.
Qed.

Lemma sanitizeLogDetails_spec_witness :
  lookup "_internal" (sanitizeLogDetails prodEnv sampleDetails) = None /\
  lookup "note" (sanitizeLogDetails prodEnv sampleDetails) = None /\
  lookup "access_token" (sanitizeLogDetails prodEnv sampleDetails) =
    Some REDACTED /\
  lookup "access_token" (sanitizeLogDetails devEnv sampleDetails) =
    Some (VStr "eyJhbGciOi").
Proof.
  split; [|split; [|split]].
  - apply (proj1 (@sanitizeLogDetails_spec prodEnv sampleDetails "_internal"
                    sampleDetails_distinct)).
    reflexivity.
  - apply (proj1 (proj2 (@sanitizeLogDetails_spec prodEnv sampleDetails "note"
                           sampleDetails_distinct))).
    right; left; reflexivity.
  - apply (proj2 (proj2 (@sanitizeLogDetails_spec prodEnv sampleDetails
                           "access_token" sampleDetails_distinct))
             (VStr "eyJhbGciOi")); reflexivity.
  - apply (proj2 (proj2 (@sanitizeLogDetails_spec devEnv sampleDetails
                           "access_token" sampleDetails_distinct))
             (VStr "eyJhbGciOi")); reflexivity.
Defined.

(** The whole sanitized object of the example, in both environments. *)
Example sanitize_sampleDetails :
  sanitizeLogDetails prodEnv sampleDetails =
    [("user", VStr "ada"); ("access_token", REDACTED)] /\
  sanitizeLogDetails devEnv sampleDetails =
    [("user", VStr "ada"); ("access_token", VStr "eyJhbGciOi")].
Proof. split; reflexivity. Qed.

End SanitizerSpec.

(** ** The call-interception wrapper *)

Module WrapperSpec.

Section Calls.

Context (B : Builtins).

Lemma invoke_wrapped env client prop target thisArg args clk st :
  isDevelopment env = true ->
  client prop = Method target ->
  invoke (wrapClient B env client) prop thisArg args clk st =
  applyTrap B env prop target thisArg args clk st.
Proof.
  intros Hdev Hprop. unfold invoke, wrapClient.
  rewrite Hdev. cbn [negb]. now rewrite Hprop.
Qed.

(** A property that is not a function is handed over as it is. *)
Lemma wrapClient_data env client prop v :
  client prop = Data v -> wrapClient B env client prop = Data v.
Proof.
  intros Hprop. unfold wrapClient.
  destruct (negb (isDevelopment env)); [assumption | now rewrite Hprop].
Qed.

(** C2, amended: in development, when a method of the client returns the
    value V (or a promise fulfilled with V), the method of the wrapped client
    returns a promise fulfilled with exactly V, and exactly one entry is
    put in the store and one line printed; the entry has level info, the
    property name as its operation and the arguments and the result's
    [data] as its details; its duration is the elapsed time, except that it
    has no duration when the elapsed time is zero (or NaN); so the duration,
    when there is one, is at least 0 whenever the elapsed time is. *)
Theorem wrapClient_method_fulfilled env client prop target thisArg args clk
    st r st1 V :
  isDevelopment env = true ->
  client prop = Method target ->
  target thisArg args clk st = (r, st1) ->
  await r = Fulfilled V ->
  exists entry st2,
    invoke (wrapClient B env client) prop thisArg args clk st =
      (Promised (Fulfilled V), st2) /\
    logs st2 = push entry (logs st1) /\
    console st2 = console st1 ++ [formatLog B env entry] /\
    level entry = Info /\
    operation entry = prop /\
    details entry =
      Some [("arguments", VArr args); ("result", getPropOpt V "data")] /\
    error entry = None /\
    duration entry =
      (if falsyNumber (elapsed clk) then None else Some (elapsed clk)) /\
    (forall d, duration entry = Some d ->
               d = elapsed clk /\
               (PrimFloat.leb 0 (elapsed clk) = true ->
                PrimFloat.leb 0 d = true)).
Proof.
  intros Hdev Hprop Hcall Hawait.
  rewrite (invoke_wrapped env client prop target) by assumption.
  unfold applyTrap. rewrite Hcall, Hawait.
  unfold log. rewrite Hdev.
  eexists. eexists. split; [reflexivity|].
  cbn [logs console level operation details error duration makeLog truthy].
  fold (elapsed clk).
  assert (Hdur : forall d,
            (if falsyNumber (elapsed clk) then None else Some (elapsed clk)) =
            Some d -> d = elapsed clk).
  { intros d. destruct (falsyNumber (elapsed clk)); congruence. }
  repeat (split; [reflexivity|]).
  intros d Hd. apply Hdur in Hd. subst d. split; [reflexivity | trivial].
Qed.


End Calls.

Lemma wrapClient_method_fulfilled_witness :
  exists entry st2,
    invoke (wrapClient plainBuiltins devEnv sampleClient) "select" VUndefined
      [VStr "*"] tickingClock initial = (Promised (Fulfilled selectResult), st2) /\
    logs st2 = [entry] /\
    level entry = Info /\
    operation entry = "select" /\
    duration entry = Some 2.5%float.
Proof.
  destruct (wrapClient_method_fulfilled plainBuiltins devEnv sampleClient
              "select" (fun _ _ _ st => (Promised (Fulfilled selectResult), st))
              VUndefined [VStr "*"] tickingClock initial
              (Promised (Fulfilled selectResult)) initial selectResult
              eq_refl eq_refl eq_refl eq_refl)
    as (entry & st2 & Hcall & Hlogs & _ & Hlevel & Hop & _ & _ & Hdur & _).
  exists entry, st2. repeat split; assumption.
Defined.


(** C2, as stated, fails: with the two readings of the clock equal, the
    method fulfils with its value and one info entry is stored, but the
    entry has no duration, so none that is at least 0. *)
Lemma wrapClient_fulfilled_without_duration :
  let out := invoke (wrapClient plainBuiltins devEnv sampleClient) "select"
               VUndefined [VStr "*"] stillClock initial in
  fst out = Promised (Fulfilled selectResult) /\
  (exists entry, logs (snd out) = [entry] /\ level entry = Info /\
                 operation entry = "select" /\ duration entry = None) /\
  ~ (exists entry d, logs (snd out) = [entry] /\ duration entry = Some d /\
                     PrimFloat.leb 0 d = true).
Proof.
  cbv zeta. split; [reflexivity|]. split.
  - eexists. repeat split.
  - intros (entry & d & Hlogs & Hdur & _).
    vm_compute in Hlogs. injection Hlogs as <-. discriminate Hdur.
Qed.


(** A method that returns at once: the wrapped method returns a promise. *)
Example wrapClient_returns_promise :
  fst (invoke sampleClient "channel" VUndefined [] tickingClock initial) =
    Returned (VStr "realtime:room") /\
  fst (invoke (wrapClient plainBuiltins devEnv sampleClient) "channel"
         VUndefined [] tickingClock initial) =
    Promised (Fulfilled (VStr "realtime:room")).
Proof. split; reflexivity. Qed.

(** A rejection with a falsy value: the entry has no error. *)
Example wrapClient_falsy_rejection :
  let client : Client :=
    fun _ => Method (fun _ _ _ st => (Promised (Rejected VUndefined), st)) in
  map (@error)
    (logs (snd (invoke (wrapClient plainBuiltins devEnv client) "get"
                  VUndefined [] tickingClock initial))) = [None].
Proof. reflexivity. Qed.

End WrapperSpec.

(** ** The tap on [window.fetch] *)

Module InstrumentationSpec.

Import Instrumentation.

Section Fetch.

Context (Net : Type).
Context (originalFetch :
           RequestInfo -> option RequestInit -> Net -> FetchResult * Net).
Context (B : Builtins).

(** [windowFetch] is the function that calls itself through the name
    [fetch]. *)
Lemma windowFetch_unfold input init clk page :
  tappedFetch originalFetch B (windowFetch originalFetch B) input init clk page =
  windowFetch originalFetch B input init clk page.
Proof. reflexivity. Qed.

(** C6: a call whose address does not contain ["supabase.co"] is the call of
    the original [fetch] with the same arguments: the same result and the
    same effect on the network, whatever the clock reads, with [console]
    left as it was and nothing sent to the ingest endpoint. *)
Theorem windowFetch_passes_through input init clk page :
  includes "supabase.co" (urlOf input) = false ->
  windowFetch originalFetch B input init clk page =
    callOriginal originalFetch input init clk page /\
  fst (windowFetch originalFetch B input init clk page) =
    fst (originalFetch input init (net page)) /\
  net (snd (windowFetch originalFetch B input init clk page)) =
    snd (originalFetch input init (net page)) /\
  consoleProxies (snd (windowFetch originalFetch B input init clk page)) =
    consoleProxies page.
Proof.
  intros Hurl.
  assert (Hsame : windowFetch originalFetch B input init clk page =
                  callOriginal originalFetch input init clk page).
  { unfold windowFetch, tappedFetch. now rewrite Hurl. }
  rewrite Hsame. unfold callOriginal.
  destruct (originalFetch input init (net page)) as [result net'].
  repeat split.
Qed.

End Fetch.

Lemma windowFetch_passes_through_witness :
  windowFetch recordingFetch plainBuiltins (InputString "/api/profile") None
    tickingClock freshPage =
  callOriginal recordingFetch (InputString "/api/profile") None
    tickingClock freshPage.
Proof.
  apply (windowFetch_passes_through CallLog recordingFetch plainBuiltins
           (InputString "/api/profile") None tickingClock freshPage).
  reflexivity.
Defined.

(** A call to the backend that fails is forwarded: the network sees the call
    and then the [POST] to the ingest endpoint. *)
Example windowFetch_forwards_failure :
  let failing (input : RequestInfo) (init : option RequestInit)
        (calls : CallLog) :=
    (Resolves {| ok := false; status := 500; statusText := "Internal";
                 contentType := None; json := None |},
     calls ++ [(input, init)]) in
  map (fun call => urlOf (fst call))
    (net (snd (windowFetch failing plainBuiltins
                 (InputString "https://abc.supabase.co/rest/v1/t") None
                 tickingClock freshPage))) =
  ["https://abc.supabase.co/rest/v1/t"; "/api/traces"]%string.
Proof. reflexivity. Qed.

End InstrumentationSpec.

(** ** The ingest handler *)

Module TracesSpec.

Import TracesRoute.

Section Ingest.

Context (B : Builtins).

(** With every event named after the backend carrying a valid time stamp,
    the loop ends without an exception, having printed one line for each of
    these events, in their order. *)
Lemma forEachTrace_valid (traces : list TraceEvent) :
  forall out,
  (forall t, In t traces -> fromSupabase t = true ->
             validTime (timestamp t) = true) ->
  exists lines,
    forEachTrace B traces out = (out ++ map SupabaseError lines, None) /\
    map Some lines =
      map (formatSupabaseError B) (filter fromSupabase traces).
Proof.
  induction traces as [|t traces IH]; intros out Hvalid.
  - exists []. split; [|reflexivity]. cbn. now rewrite app_nil_r.
  - cbn [forEachTrace filter]. fold (fromSupabase t).
    destruct (fromSupabase t) eqn:Hfrom.
    + assert (Ht : validTime (timestamp t) = true)
        by (apply Hvalid; [now left | assumption]).
      destruct (formatSupabaseError B t) as [message|] eqn:Hfmt.
      * destruct (IH (out ++ [SupabaseError message])) as (lines & Hloop & Hlines).
        { intros t' Hin. apply Hvalid. now right. }
        exists (message :: lines). split.
        -- rewrite Hloop, <- app_assoc. reflexivity.
        -- cbn [map]. now rewrite Hlines, Hfmt.
      * unfold formatSupabaseError in Hfmt. rewrite Ht in Hfmt. discriminate.
    + apply IH. intros t' Hin. apply Hvalid. now right.
Qed.

(** C7, amended: for a body that is an array of trace events in which every
    event whose name starts with ["Supabase."] has a time stamp in the range
    of dates, the response is 200 with [{ok: true}], and [console.error] is
    called exactly once for each event whose name starts with ["Supabase."],
    whatever its level, and for no other; for a body that is not an array,
    or not JSON, the response is 400 with [{error: "Invalid trace data"}]. *)
Theorem POST_ingest :
  (forall traces,
     (forall t, In t traces -> fromSupabase t = true ->
                validTime (timestamp t) = true) ->
     exists lines,
       POST B (TraceArray traces) = (map SupabaseError lines, okResponse) /\
       map Some lines =
         map (formatSupabaseError B) (filter fromSupabase traces) /\
       List.length (fst (POST B (TraceArray traces))) =
         List.length (filter fromSupabase traces)) /\
  (forall v, snd (POST B (NotArray v)) = invalidResponse) /\
  snd (POST B NotJson) = invalidResponse /\
  responseStatus okResponse = 200 /\
  responseBody okResponse = VObj [("ok", VBool true)] /\
  responseStatus invalidResponse = 400 /\
  responseBody invalidResponse = VObj [("error", VStr "Invalid trace data")].
Proof.
  repeat split.
  intros traces Hvalid.
  destruct (forEachTrace_valid traces [] Hvalid) as (lines & Hloop & Hlines).
  exists lines.
  assert (Hpost : POST B (TraceArray traces) =
                  (map SupabaseError lines, okResponse)).
  { unfold POST. now rewrite Hloop. }
  repeat split; trivial.
  rewrite Hpost. cbn [fst].
  rewrite length_map, <- (length_map Some), Hlines. apply length_map.
Qed.

End Ingest.

Lemma POST_ingest_witness :
  exists lines,
    POST plainBuiltins (TraceArray [pageView; tapError; pageView]) =
      (map SupabaseError lines, okResponse) /\
    List.length lines = 1.
Proof.
  destruct (proj1 (POST_ingest plainBuiltins) [pageView; tapError; pageView])
    as (lines & Hpost & Hlines & _).
  - intros t [<- | [<- | [<- | []]]]; intros Hfrom;
      solve [reflexivity | discriminate Hfrom].
  - exists lines. split; [exact Hpost|].
    rewrite <- (length_map Some), Hlines. reflexivity.
Defined.

(** C7, as stated, fails.  An event whose name starts with ["Supabase."] is
    printed although its level is not error; and an array of well-formed
    events one of which is an error stamped beyond the range of dates is
    answered with 400. *)
Lemma POST_not_by_level :
  snd (POST plainBuiltins (TraceArray [queryInfo])) = okResponse /\
  List.length (diagnostics (fst (POST plainBuiltins (TraceArray [queryInfo])))) = 1 /\
  List.length (filter (fun t => fromSupabase t && isError t) [queryInfo]) = 0 /\
  fromSupabase farFutureError = true /\
  isError farFutureError = true /\
  snd (POST plainBuiltins (TraceArray [farFutureError])) = invalidResponse.
Proof. repeat split. Qed.

End TracesSpec.

(* ================================================================== *)
(** * Part III: further properties of the code                         *)
(* ================================================================== *)

(** ** The store under the operations of its callers *)

Module StoreUse.

Import LoggerUse.

Section Runs.

Context (B : Builtins).

Lemma perform_bounded env st op :
  List.length (logs st) <= MAX_LOGS ->
  List.length (logs (perform B env st op)) <= MAX_LOGS.
Proof.
  intros Hlen. destruct op as [call| |limit level_]; cbn [perform].
  - now apply StoreSpec.log_bounded.
  - apply StoreSpec.clearLogs_bounded.
  - exact Hlen.
Qed.

Lemma performAll_bounded_from env ops : forall st,
  List.length (logs st) <= MAX_LOGS ->
  List.length (logs (performAll B env ops st)) <= MAX_LOGS.
Proof.
  induction ops as [|op ops IH]; intros st Hlen; [exact Hlen|].
  apply IH. now apply perform_bounded.
Qed.

(** X1: whatever calls of [log], [clearLogs] and [getLogs] are made on the
    logger, in whatever environment, its store never holds more than
    [MAX_LOGS] entries. *)
Theorem performAll_bounded env (ops : list Operation) :
  List.length (logs (performAll B env ops initial)) <= MAX_LOGS.
Proof. apply performAll_bounded_from, StoreSpec.initial_bounded. Qed.

(** The entry just stored is at the front, also when the store was full. *)
Lemma push_head (entry : SupabaseLog) (store : list SupabaseLog) :
  exists rest, push entry store = entry :: rest.
Proof.
  unfold push.
  destruct (Nat.ltb_spec MAX_LOGS (List.length (entry :: store))) as [Hgt | _].
  - destruct store as [|e store].
    + exfalso. cbn [List.length] in Hgt. unfold MAX_LOGS in Hgt. lia.
    + exists (removelast (e :: store)). reflexivity.
  - now exists store.
Qed.

(** X2: with [NODE_ENV] development, the entry a call of [log] stores is
    the first one a query returns right after, for every limit of at least 1
    (and for the default limit), without a filter or with the filter of the
    entry's own level, whatever the store held. *)
Theorem log_then_getLogs_head env now lvl op det err dur st
    (limit : option Z) (level_ : option LogLevel) :
  isDevelopment env = true ->
  (forall n, limit = Some n -> (1 <= n)%Z) ->
  level_ = None \/ level_ = Some lvl ->
  hd_error (fst (getLogs limit level_ (log B env now lvl op det err dur st))) =
  Some (makeLog B env now lvl op det err dur).
Proof.
  intros Hdev Hlimit Hfilter.
  set (entry := makeLog B env now lvl op det err dur).
  assert (Hn : exists n, (1 <= n)%Z /\
             fst (getLogs limit level_ (log B env now lvl op det err dur st)) =
             fst (getLogs (Some n) level_ (log B env now lvl op det err dur st))).
  { destruct limit as [n|].
    - exists n. split; [now apply Hlimit | reflexivity].
    - exists 100%Z. split; [lia | reflexivity]. }
  destruct Hn as (n & Hpos & ->).
  unfold getLogs. cbn [fst].
  rewrite StoreSpec.log_logs_development by assumption. fold entry.
  destruct (push_head entry (logs st)) as (rest & ->).
  assert (Hfirst : forall xs, hd_error (slice0 n (entry :: xs)) = Some entry).
  { intros xs. rewrite StoreSpec.slice0_firstn by lia.
    destruct (Z.to_nat n) as [|m] eqn:Hm; [lia | reflexivity]. }
  destruct Hfilter as [-> | ->]; [apply Hfirst|].
  cbn [filter].
  replace (LogLevel_eqb (level entry) lvl) with true
    by (unfold entry; cbn [level makeLog]; now destruct lvl).
  apply Hfirst.
Qed.

(** After [clearLogs] every query returns the empty array, the lines
    already printed stay, and in development the next call of [log] leaves a
    store of exactly its own entry. *)
Lemma clearLogs_forgets st :
  (forall limit level_, fst (getLogs limit level_ (clearLogs st)) = []) /\
  console (clearLogs st) = console st /\
  (forall env now lvl op det err dur,
     isDevelopment env = true ->
     logs (log B env now lvl op det err dur (clearLogs st)) =
     [makeLog B env now lvl op det err dur]).
Proof.
  split; [|split].
  - intros limit level_. unfold getLogs, clearLogs, slice0. cbn [fst logs].
    destruct level_; cbn [filter]; apply firstn_nil.
  - reflexivity.
  - intros env now lvl op det err dur Hdev.
    now rewrite StoreSpec.log_logs_development.
Qed.


End Runs.

(** X4: whatever the limit, also a negative one, and whatever the filter,
    the array [getLogs] returns is a leading part of the filtered store; a
    limit [n >= 0] gives the first [n] entries (all of them if there are
    fewer), a limit [-k] gives all but the last [k]. *)
Theorem getLogs_leading_part (n : Z) (level_ : option LogLevel) (st : State) :
  let filtered :=
    match level_ with
    | Some l => filter (fun e => LogLevel_eqb (level e) l) (logs st)
    | None => logs st
    end in
  let result := fst (getLogs (Some n) level_ st) in
  (exists rest, filtered = result ++ rest) /\
  List.length result =
    (if (n <? 0)%Z then List.length filtered - Z.to_nat (- n)
     else Nat.min (Z.to_nat n) (List.length filtered)).
Proof.
  cbv zeta.
  assert (Hres : fst (getLogs (Some n) level_ st) =
                 slice0 n match level_ with
                          | Some l =>
                              filter (fun e => LogLevel_eqb (level e) l) (logs st)
                          | None => logs st
                          end)
    by (unfold getLogs; cbn [fst]; now destruct level_).
  rewrite Hres. clear Hres.
  generalize (match level_ with
              | Some l => filter (fun e => LogLevel_eqb (level e) l) (logs st)
              | None => logs st
              end).
  intros xs. unfold slice0. split.
  - eexists. symmetry. apply firstn_skipn.
  - rewrite length_firstn. destruct (Z.ltb_spec n 0); lia.
Qed.

End StoreUse.

(** ** More on the sanitizer and on error formatting *)

Module SanitizerUse.

Import LoggerUse.

Lemma In_setField (k k' : string) (v v' : JsValue) (fs : Fields) :
  In (k, v) (setField k' v' fs) -> (k, v) = (k', v') \/ In (k, v) fs.
Proof.
  induction fs as [|[k0 v0] fs IH]; simpl.
  - intros [Heq | []]. left. now symmetry.
  - destruct (String.eqb k' k0).
    + intros [Heq | Hin]; [left; now symmetry | right; now right].
    + intros [Heq | Hin]; [right; now left|].
      destruct (IH Hin) as [Heq | Hin']; [now left | right; now right].
Qed.

Lemma setField_keys_absent (k : string) (v : JsValue) (fs : Fields) :
  ~ In k (map fst fs) -> setField k v fs = fs ++ [(k, v)].
Proof.
  induction fs as [|[k0 v0] fs IH]; simpl; intros Hnot; [reflexivity|].
  destruct (String.eqb_spec k k0) as [-> | Hne].
  - exfalso. apply Hnot. now left.
  - f_equal. apply IH. intros Hin. apply Hnot. now right.
Qed.

Lemma setField_keys_present (k : string) (v : JsValue) (fs : Fields) :
  In k (map fst fs) -> map fst (setField k v fs) = map fst fs.
Proof.
  induction fs as [|[k0 v0] fs IH]; simpl; intros Hin; [contradiction|].
  destruct (String.eqb_spec k k0) as [-> | Hne]; [reflexivity|].
  simpl. f_equal. apply IH. destruct Hin as [Heq | Hin]; [congruence | exact Hin].
Qed.

Lemma setField_NoDup (k : string) (v : JsValue) (fs : Fields) :
  NoDup (map fst fs) -> NoDup (map fst (setField k v fs)).
Proof.
  intros Hnodup. destruct (in_dec string_dec k (map fst fs)) as [Hin | Hnot].
  - now rewrite setField_keys_present.
  - rewrite setField_keys_absent, map_app by assumption.
    apply NoDup_app; [assumption | repeat constructor; intros [] | ].
    intros x Hx [<- | []]. contradiction.
Qed.

Lemma sanitize_fold_clean env (all details : LogDetails) :
  forall acc,
  (forall e, In e details -> In e all) ->
  (forall e, In e acc -> clean env all e) ->
  NoDup (map fst acc) ->
  (forall e, In e (fold_left (sanitizeEntry env) details acc) ->
             clean env all e) /\
  NoDup (map fst (fold_left (sanitizeEntry env) details acc)).
Proof.
  induction details as [|[k0 v0] details IH]; intros acc Hsub Hacc Hnodup.
  - split; assumption.
  - cbn [fold_left]. apply IH.
    + intros e He. apply Hsub. now right.
    + intros [k v] Hin. unfold sanitizeEntry in Hin.
      destruct (startsWith "_" k0) eqn:Hunder; cbn [negb andb] in Hin;
        [now apply Hacc|].
      destruct (nullish v0) eqn:Hnull; cbn [negb] in Hin; [now apply Hacc|].
      assert (Hk0 : In (k0, v0) all) by (apply Hsub; now left).
      destruct (isProduction env && sensitiveKey k0)%bool eqn:Hredact;
        apply In_setField in Hin as [Heq | Hin]; try (now apply Hacc);
        injection Heq as -> ->; unfold clean; cbn [fst snd].
      * repeat split; trivial. exists v0. split; [assumption | now right].
      * repeat split; trivial.
        -- intros Hprod Hsens. rewrite Hprod, Hsens in Hredact. discriminate.
        -- exists v0. split; [assumption | now left].
    + unfold sanitizeEntry.
      destruct (negb (startsWith "_" k0) && negb (nullish v0))%bool;
        [|assumption].
      destruct (isProduction env && sensitiveKey k0)%bool;
        now apply setField_NoDup.
Qed.

(** X5: every property of a sanitized object has a name without a leading
    underscore and a value that is neither null nor undefined; the names are
    distinct; each comes from a property of the input, with that value or
    the marker; and under [NODE_ENV=production] no property whose name
    contains password, token, key, secret or session has a value other than
    the marker. *)
Theorem sanitizeLogDetails_clean env (details : LogDetails) :
  (forall k v, In (k, v) (sanitizeLogDetails env details) ->
     startsWith "_" k = false /\
     nullish v = false /\
     (isProduction env = true -> sensitiveKey k = true -> v = REDACTED) /\
     (exists v0, In (k, v0) details /\ (v = v0 \/ v = REDACTED))) /\
  NoDup (map fst (sanitizeLogDetails env details)).
Proof.
  destruct (sanitize_fold_clean env details details [])
    as [Hclean Hnodup]; trivial.
  - intros e [].
  - constructor.
  - split; [|exact Hnodup].
    intros k v Hin. exact (Hclean (k, v) Hin).
Qed.

Lemma keptEntry_keys env (details : LogDetails) (k : string) :
  In k (map fst (flat_map (keptEntry env) details)) -> In k (map fst details).
Proof.
  induction details as [|[k0 v0] details IH]; cbn [flat_map map]; [trivial|].
  rewrite map_app, in_app_iff. intros [Hin | Hin].
  - left. unfold keptEntry in Hin. cbn [fst snd] in Hin.
    destruct (negb (startsWith "_" k0) && negb (nullish v0))%bool;
      [|contradiction].
    destruct Hin as [<- | []]. reflexivity.
  - right. now apply IH.
Qed.

Lemma sanitize_fold_pass env (details : LogDetails) : forall acc,
  NoDup (map fst acc ++ map fst details) ->
  fold_left (sanitizeEntry env) details acc =
  acc ++ flat_map (keptEntry env) details.
Proof.
  induction details as [|[k0 v0] details IH]; intros acc Hnodup.
  - cbn. now rewrite app_nil_r.
  - cbn [fold_left flat_map map] in *.
    assert (Hfresh : ~ In k0 (map fst acc)).
    { intros Hin. apply NoDup_remove_2 in Hnodup.
      apply Hnodup, in_or_app. now left. }
    assert (Hstep : sanitizeEntry env acc (k0, v0) =
                    acc ++ keptEntry env (k0, v0)).
    { unfold sanitizeEntry, keptEntry. cbn [fst snd].
      destruct (negb (startsWith "_" k0) && negb (nullish v0))%bool;
        [|now rewrite app_nil_r].
      destruct (isProduction env && sensitiveKey k0)%bool;
        now apply setField_keys_absent. }
    rewrite Hstep, IH, <- app_assoc; [reflexivity|].
    unfold keptEntry. cbn [fst snd].
    destruct (negb (startsWith "_" k0) && negb (nullish v0))%bool.
    + rewrite map_app, <- app_assoc. exact Hnodup.
    + rewrite app_nil_r. now apply NoDup_remove_1 in Hnodup.
Qed.

Lemma keptEntry_kept env (entry : string * JsValue) :
  flat_map (keptEntry env) (keptEntry env entry) = keptEntry env entry.
Proof.
  destruct entry as [k0 v0]. unfold keptEntry. cbn [fst snd].
  destruct (startsWith "_" k0) eqn:Hunder; cbn [negb andb]; [reflexivity|].
  destruct (nullish v0) eqn:Hnull; cbn [negb]; [reflexivity|].
  cbn [flat_map fst snd]. rewrite Hunder, app_nil_r. cbn [negb andb].
  destruct (isProduction env && sensitiveKey k0)%bool.
  - reflexivity.
  - now rewrite Hnull.
Qed.

Lemma keptEntry_again env (details : LogDetails) :
  flat_map (keptEntry env) (flat_map (keptEntry env) details) =
  flat_map (keptEntry env) details.
Proof.
  induction details as [|entry details IH]; [reflexivity|].
  cbn [flat_map]. now rewrite flat_map_app, IH, keptEntry_kept.
Qed.

Lemma keptEntry_NoDup env (details : LogDetails) :
  NoDup (map fst details) ->
  NoDup (map fst (flat_map (keptEntry env) details)).
Proof.
  induction details as [|[k0 v0] details IH]; cbn [flat_map map];
    intros Hnodup; [constructor|].
  inversion Hnodup as [|? ? Hnotin Hnodup']; subst.
  rewrite map_app. unfold keptEntry at 1. cbn [fst snd].
  destruct (negb (startsWith "_" k0) && negb (nullish v0))%bool;
    cbn [map app]; [|now apply IH].
  constructor; [|now apply IH].
  intros Hin. apply Hnotin. now apply (keptEntry_keys env).
Qed.

Lemma sanitize_is_pass env (details : LogDetails) :
  NoDup (map fst details) ->
  sanitizeLogDetails env details = flat_map (keptEntry env) details.
Proof.
  intros Hnodup. unfold sanitizeLogDetails. now rewrite sanitize_fold_pass.
Qed.

Lemma sanitize_twice env (details : LogDetails) :
  NoDup (map fst details) ->
  sanitizeLogDetails env (sanitizeLogDetails env details) =
  sanitizeLogDetails env details.
Proof.
  intros Hnodup. rewrite (sanitize_is_pass env details Hnodup).
  rewrite sanitize_is_pass by now apply keptEntry_NoDup.
  apply keptEntry_again.
Qed.

(** X6: on an object (distinct property names) the sanitizer is one pass in
    property order that drops or keeps each property on its own, and
    sanitizing a second time changes nothing. *)
Theorem sanitizeLogDetails_pass env (details : LogDetails) :
  NoDup (map fst details) ->
  sanitizeLogDetails env details = flat_map (keptEntry env) details /\
  sanitizeLogDetails env (sanitizeLogDetails env details) =
    sanitizeLogDetails env details.
Proof.
  intros Hnodup. split.
  - now apply sanitize_is_pass.
  - now apply sanitize_twice.
Qed.

Section Formatting.

Context (B : Builtins).

(** X7: the line printed for an entry is the line printed for the entry
    with its details sanitized beforehand: what the sanitizer drops or
    redacts has no part in the line. *)
Theorem formatLog_of_sanitized env (entry : SupabaseLog) (d : LogDetails) :
  details entry = Some d ->
  NoDup (map fst d) ->
  formatLog B env entry =
  formatLog B env
    {| timestamp := timestamp entry;
       level := level entry;
       operation := operation entry;
       details := Some (sanitizeLogDetails env d);
       duration := duration entry;
       error := error entry;
       environment := environment entry |}.
Proof.
  intros Hdetails Hnodup. unfold formatLog.
  cbn [timestamp level operation details duration error].
  rewrite Hdetails.
  now rewrite (sanitize_twice env d Hnodup).
Qed.

(** What [formatError] returns is an object or an array, never null, a
    primitive or an instance of [Error]; it is truthy, so an entry that has
    an error has its error lines printed; and [formatError] gives it back as
    it is. *)
Lemma formatError_object (e : JsValue) :
  match formatError B e with
  | VObj _ | VArr _ => True
  | _ => False
  end /\
  truthy (formatError B e) = true /\
  formatError B (formatError B e) = formatError B e.
Proof. destruct e; repeat split. Qed.



End Formatting.

End SanitizerUse.

(** ** More on the wrapper, and the realtime channels *)

Module WrapperUse.

Import LoggerUse.

Section Calls.

Context (B : Builtins).



(** X10: in every environment a property of the client that is not a
    function is read from the wrapped client as it is, and calling it fails
    as on the client, without an entry and without a line. *)
Theorem wrapClient_non_function env client prop v thisArg args clk st :
  client prop = Data v ->
  wrapClient B env client prop = Data v /\
  invoke (wrapClient B env client) prop thisArg args clk st =
    invoke client prop thisArg args clk st /\
  snd (invoke (wrapClient B env client) prop thisArg args clk st) = st.
Proof.
  intros Hprop.
  assert (Hw : wrapClient B env client prop = Data v)
    by now apply WrapperSpec.wrapClient_data.
  unfold invoke. rewrite Hw, Hprop. repeat split.
Qed.


(** *** Realtime channels *)

Context (Channel : Type).



Lemma reportAll_logAll env channelName (events : list (float * string)) :
  forall st,
  reportAll B env channelName events st =
  logAll B env (map (statusCall channelName) events) st.
Proof.
  induction events as [|[now status] events IH]; intros st; [reflexivity|].
  cbn [reportAll fold_left map]. unfold reportAll in IH. rewrite IH.
  reflexivity.
Qed.

(** X13: with [NODE_ENV] development the statuses a tracked channel
    reports are stored one entry each, newest first and bounded as every
    entry is; each entry has level info, the operation ["realtime.status"],
    the channel name and the status as details, no error and no duration. *)
Theorem reportAll_logs env channelName (events : list (float * string))
    (st : State) :
  isDevelopment env = true ->
  List.length (logs st) <= MAX_LOGS ->
  logs (reportAll B env channelName events st) =
    firstn MAX_LOGS
      (rev (map (fun e => entryOf B env (statusCall channelName e)) events)
       ++ logs st) /\
  (forall e, In e events ->
     let entry := entryOf B env (statusCall channelName e) in
     level entry = Info /\
     operation entry = "realtime.status"%string /\
     details entry =
       Some [("channel"%string, VStr channelName);
             ("status"%string, VStr (snd e))] /\
     error entry = None /\
     duration entry = None /\
     timestamp entry = fst e).
Proof.
  intros Hdev Hlen. split.
  - rewrite reportAll_logAll, StoreSpec.logAll_logs by assumption.
    now rewrite map_map.
  - intros e _. repeat split.
Qed.

End Calls.

End WrapperUse.

(** ** More on the tap: calls to the backend, and [console.error] *)

Module TapUse.

Import Instrumentation.
Import ConsoleTap.

Section Fetch.

Context (Net : Type).
Context (originalFetch :
           RequestInfo -> option RequestInit -> Net -> FetchResult * Net).
Context (B : Builtins).

(** The request [sendToServer] makes: a [POST] of JSON to the ingest
    endpoint. *)
Lemma sendToServer_request (log : Fields) clk (page : Page Net) :
  exists text,
    sendToServer B (windowFetch originalFetch B) log clk page =
    {| net := snd (originalFetch (InputString "/api/traces")
                     (Some {| method := Some "POST"%string;
                              headers := [("Content-Type"%string,
                                           "application/json"%string)];
                              body := Some text |})
                     (net page));
       consoleProxies := consoleProxies page |}.
Proof.
  exists (stringify B
            (VArr [VObj (setField "environment" (VStr "client")
                           (setField "timestamp" (VNum (dateNow clk)) log))])).
  unfold sendToServer, windowFetch, tappedFetch.
  cbn [urlOf]. cbn [includes String.prefix]. cbn [orb].
  unfold callOriginal.
  match goal with
  | |- context [originalFetch ?i ?n ?s] =>
      destruct (originalFetch i n s) as [result net']
  end.
  reflexivity.
Qed.

(** The proxies around [console] after a call: one more when the call
    was to the backend and failed. *)
Lemma windowFetch_proxies input init clk (page : Page Net) :
  consoleProxies (snd (windowFetch originalFetch B input init clk page)) =
  if (includes "supabase.co" (urlOf input) &&
      reported (fst (originalFetch input init (net page))))%bool
  then S (consoleProxies page) else consoleProxies page.
Proof.
  pose (inner := windowFetch originalFetch B).
  assert (Hunfold : windowFetch originalFetch B input init clk page =
            tappedFetch originalFetch B inner input init clk page)
    by reflexivity.
  rewrite Hunfold. unfold tappedFetch, callOriginal.
  unfold inner. clear Hunfold inner.
  destruct (includes "supabase.co" (urlOf input)); cbn [andb];
    destruct (originalFetch input init (net page))
      as [[response | error] net']; cbn [fst snd reported consoleProxies];
    try reflexivity.
  - destruct (negb (ok response)); [|reflexivity].
    match goal with
    | |- context [sendToServer B _ ?log clk ?p] =>
        destruct (sendToServer_request log clk p) as (text & ->)
    end.
    reflexivity.
  - match goal with
    | |- context [sendToServer B _ ?log clk ?p] =>
        destruct (sendToServer_request log clk p) as (text & ->)
    end.
    reflexivity.
Qed.


(** X15: a call that the original [fetch] answers with an [ok] response is
    the call of the original [fetch] and nothing more, whatever its address:
    nothing is sent to the ingest endpoint and [console] is left alone. *)
Theorem windowFetch_ok_unreported input init clk (page : Page Net) :
  reported (fst (originalFetch input init (net page))) = false ->
  windowFetch originalFetch B input init clk page =
  callOriginal originalFetch input init clk page.
Proof.
  intros Hok. unfold windowFetch, tappedFetch at 1, callOriginal.
  destruct (originalFetch input init (net page)) as [[response | error] net'];
    cbn [fst reported] in Hok; [|discriminate].
  destruct (includes "supabase.co" (urlOf input)); [|reflexivity].
  now rewrite Hok.
Qed.


(** A call never takes a proxy away from [console]. *)
Lemma windowFetch_proxies_stay input init clk (page : Page Net) :
  consoleProxies page <=
  consoleProxies (snd (windowFetch originalFetch B input init clk page)).
Proof.
  rewrite windowFetch_proxies.
  destruct (includes "supabase.co" (urlOf input) &&
            reported (fst (originalFetch input init (net page))))%bool;
    [apply Nat.le_succ_diag_r | apply Nat.le_refl].
Qed.


(** X18: after one call to the backend has failed, [console.error] does
    nothing at all, whatever its arguments, mention of the backend or not:
    nothing is printed and nothing is sent; and no later call of [fetch]
    undoes this. *)
Theorem consoleError_silenced_for_good input init clk (b : Browser Net) :
  includes "supabase.co" (urlOf input) = true ->
  reported (fst (originalFetch input init (net (page b)))) = true ->
  let b1 := snd (browserFetch originalFetch B input init clk b) in
  (forall args clk', consoleError originalFetch B args clk' b1 = b1) /\
  (forall input' init' clk' args clk'',
     let b2 := snd (browserFetch originalFetch B input' init' clk' b1) in
     consoleError originalFetch B args clk'' b2 = b2).
Proof.
  intros Hurl Hfail. cbv zeta.
  assert (Hsilent : forall b' : Browser Net,
            0 < consoleProxies (page b') ->
            forall args clk', consoleError originalFetch B args clk' b' = b').
  { intros b' Hpos args clk'. unfold consoleError.
    destruct (consoleProxies (page b')); [lia | reflexivity]. }
  assert (Hpage : forall i n c (x : Browser Net),
            page (snd (browserFetch originalFetch B i n c x)) =
            snd (windowFetch originalFetch B i n c (page x))).
  { intros i n c x. unfold browserFetch.
    now destruct (windowFetch originalFetch B i n c (page x)). }
  assert (Hone : 0 < consoleProxies
                       (page (snd (browserFetch originalFetch B input init
                                     clk b)))).
  { rewrite Hpage, windowFetch_proxies, Hurl, Hfail. cbn [andb]. lia. }
  split.
  - now apply Hsilent.
  - intros input' init' clk' args clk''. apply Hsilent. rewrite Hpage.
    eapply Nat.lt_le_trans; [exact Hone | apply windowFetch_proxies_stay].
Qed.

End Fetch.

End TapUse.

(** ** More on the ingest handler *)

Module TracesUse.

Import TracesRoute.

Section Ingest.

Context (B : Builtins).

(** The loop with lines already printed is the loop started afresh, after
    these lines. *)
Lemma forEachTrace_out (traces : list TraceEvent) : forall out,
  forEachTrace B traces out =
  (out ++ fst (forEachTrace B traces []), snd (forEachTrace B traces [])).
Proof.
  induction traces as [|t traces IH]; intros out.
  - cbn. now rewrite app_nil_r.
  - cbn [forEachTrace].
    destruct (startsWith "Supabase." (name t)); [|apply IH].
    destruct (formatSupabaseError B t) as [message|].
    + rewrite IH, (IH ([] ++ [SupabaseError message])).
      cbn [fst snd app]. now rewrite <- app_assoc.
    + cbn. now rewrite app_nil_r.
Qed.

Lemma forEachTrace_filter (traces : list TraceEvent) : forall out,
  forEachTrace B (filter fromSupabase traces) out = forEachTrace B traces out.
Proof.
  induction traces as [|t traces IH]; intros out; [reflexivity|].
  cbn [filter forEachTrace]. unfold fromSupabase at 1.
  destruct (startsWith "Supabase." (name t)) eqn:Hfrom; [|apply IH].
  cbn [forEachTrace]. rewrite Hfrom.
  destruct (formatSupabaseError B t); [apply IH | reflexivity].
Qed.

(** X19: the events whose name does not start with ["Supabase."] play no
    part: the handler prints and answers as for the array without them. *)
Theorem POST_ignores_other_events (traces : list TraceEvent) :
  POST B (TraceArray traces) = POST B (TraceArray (filter fromSupabase traces)).
Proof. unfold POST. now rewrite forEachTrace_filter. Qed.

Lemma formatSupabaseError_defined (t : TraceEvent) :
  validTime (timestamp t) = true <-> formatSupabaseError B t <> None.
Proof.
  unfold formatSupabaseError.
  destruct (validTime (timestamp t)); split; intros; congruence.
Qed.

Lemma forEachTrace_failure (traces : list TraceEvent) :
  snd (forEachTrace B traces []) =
  if forallb (fun t => negb (fromSupabase t) || validTime (timestamp t))%bool
       traces
  then None else Some RangeError.
Proof.
  induction traces as [|t traces IH]; [reflexivity|].
  cbn [forEachTrace forallb]. unfold fromSupabase at 1.
  destruct (startsWith "Supabase." (name t)); cbn [negb orb]; [|exact IH].
  unfold formatSupabaseError.
  destruct (validTime (timestamp t)); cbn [andb]; [|reflexivity].
  rewrite forEachTrace_out. cbn [snd]. exact IH.
Qed.

(** X20: for an array of trace events the answer is 200 exactly when every
    event whose name starts with ["Supabase."] has a time stamp in the range
    of dates, and 400 otherwise: an event of any other name may carry any
    time stamp. *)
Theorem POST_status (traces : list TraceEvent) :
  snd (POST B (TraceArray traces)) =
  if forallb (fun t => negb (fromSupabase t) || validTime (timestamp t))%bool
       traces
  then okResponse else invalidResponse.
Proof.
  unfold POST. pose proof (forEachTrace_failure traces) as Hfail.
  destruct (forEachTrace B traces []) as [out [failure|]]; cbn [snd] in Hfail;
    destruct (forallb _ traces); try discriminate; reflexivity.
Qed.

(** X21: the loop stops at the first event named after the backend whose
    time stamp is out of range: the events before it have had their lines
    printed, the events after it are not looked at, [console.error] is then
    called with the exception, and the answer is 400. *)
Theorem POST_stops_at_bad_timestamp (before after : list TraceEvent)
    (bad : TraceEvent) :
  (forall t, In t before -> fromSupabase t = true ->
             validTime (timestamp t) = true) ->
  fromSupabase bad = true ->
  validTime (timestamp bad) = false ->
  exists lines,
    POST B (TraceArray (before ++ bad :: after)) =
      (map SupabaseError lines ++ [ErrorProcessingTraces RangeError],
       invalidResponse) /\
    map Some lines = map (formatSupabaseError B) (filter fromSupabase before).
Proof.
  intros Hvalid Hfrom Hbad.
  assert (Hloop : forall out,
            forEachTrace B (bad :: after) out = (out, Some RangeError)).
  { intros out. cbn [forEachTrace]. unfold fromSupabase in Hfrom.
    rewrite Hfrom. unfold formatSupabaseError. now rewrite Hbad. }
  assert (Hsplit : forall pre out,
            (forall t, In t pre -> fromSupabase t = true ->
                       validTime (timestamp t) = true) ->
            exists lines,
              forEachTrace B (pre ++ bad :: after) out =
                (out ++ map SupabaseError lines, Some RangeError) /\
              map Some lines =
                map (formatSupabaseError B) (filter fromSupabase pre)).
  { induction pre as [|t pre IH]; intros out Hpre.
    - exists []. cbn [app map filter]. rewrite Hloop, app_nil_r. now split.
    - cbn [app forEachTrace filter]. fold (fromSupabase t).
      destruct (fromSupabase t) eqn:Ht.
      + assert (Hv : validTime (timestamp t) = true)
          by (apply Hpre; [now left | assumption]).
        destruct (formatSupabaseError B t) as [message|] eqn:Hfmt;
          [|now apply formatSupabaseError_defined in Hv].
        destruct (IH (out ++ [SupabaseError message])) as (lines & -> & Hl).
        { intros t' Hin. apply Hpre. now right. }
        exists (message :: lines). cbn [map]. rewrite <- app_assoc.
        split; [reflexivity | now rewrite Hl, Hfmt].
      + apply IH. intros t' Hin. apply Hpre. now right. }
  destruct (Hsplit before [] Hvalid) as (lines & Hrun & Hlines).
  exists lines. split; [|exact Hlines].
  unfold POST. now rewrite Hrun.
Qed.

End Ingest.

End TracesUse.

(** ** The proxy to the platform's log API *)

Module AuthLogsUse.

Import AuthLogsRoute.

Section Handler.

Context (Net : Type).
Context (fetch : string -> list (string * string) -> Net -> UpstreamResult * Net).
Context (B : Builtins).
Context (H : Host).

(** X22: when the project identifier or the access token is unset or empty,
    the answer is 500 with the message that names the two variables, the
    platform is not called, and nothing is written to the console. *)
Theorem GET_missing_configuration (env : RouteEnv) (q : SearchParams)
    (net : Net) :
  truthyVar (NEXT_PUBLIC_SUPABASE_PROJECT_ID env) = false \/
  truthyVar (SUPABASE_ACCESS_TOKEN env) = false ->
  GET fetch B H env q net =
  ({| responseStatus := 500;
      responseBody := VObj [("error"%string, VStr missingVariables)] |},
   net, []).
Proof.
  unfold GET, truthyVar.
  destruct (NEXT_PUBLIC_SUPABASE_PROJECT_ID env) as [projectId|];
    destruct (SUPABASE_ACCESS_TOKEN env) as [accessToken|];
    try reflexivity.
  destruct (String.eqb projectId ""), (String.eqb accessToken "");
    cbn [negb orb]; intros [Hp | Ht]; try discriminate; reflexivity.
Qed.

Lemma GET_configured env q net projectId accessToken :
  NEXT_PUBLIC_SUPABASE_PROJECT_ID env = Some projectId ->
  SUPABASE_ACCESS_TOKEN env = Some accessToken ->
  projectId <> ""%string -> accessToken <> ""%string ->
  GET fetch B H env q net =
  let url := urlOf H projectId q in
  let out := [ConsoleLog "Fetching logs from:" (VStr url)] in
  match answerOf fetch H projectId accessToken q net with
  | (Fails error, net) => caught env error net out
  | (Answers response, net) =>
      if negb (ok response) then
        caught env
          (newError H ("Supabase API error: " ++
                       numberToString B (status response) ++ " " ++
                       statusText response)%string)
          net
          (out ++ [ConsoleErr "Supabase API error:"
                     (VObj [("status"%string, VNum (status response));
                            ("statusText"%string, VStr (statusText response));
                            ("body"%string, VStr (text response))])])
      else
        match json response with
        | Rejected error => caught env error net out
        | Fulfilled data =>
            if nullish data then
              caught env (VError (typeErrorMessage H) (newStack H) []) net out
            else if truthy (getProp data "error") then
              caught env
                (newError H (upstreamErrorMessage B (getProp data "error")))
                net out
            else ({| responseStatus := 200; responseBody := data |}, net, out)
        end
  end.
Proof.
  intros Hp Ht Hpne Htne. unfold GET, answerOf. rewrite Hp, Ht.
  destruct (String.eqb_spec projectId ""); [contradiction|].
  destruct (String.eqb_spec accessToken ""); [contradiction|].
  reflexivity.
Qed.

(** X23: with both variables set, the platform is called exactly once, at
    the address of the project's log endpoint with the access token as
    bearer; the answer is 200 with the platform's data, unchanged, when the
    platform answers [ok] with JSON that is not null and names no error, and
    500 in every other case. *)
Theorem GET_status env q net projectId accessToken :
  NEXT_PUBLIC_SUPABASE_PROJECT_ID env = Some projectId ->
  SUPABASE_ACCESS_TOKEN env = Some accessToken ->
  projectId <> ""%string -> accessToken <> ""%string ->
  snd (fst (GET fetch B H env q net)) =
    snd (answerOf fetch H projectId accessToken q net) /\
  match succeeds (fst (answerOf fetch H projectId accessToken q net)) with
  | Some data =>
      fst (fst (GET fetch B H env q net)) =
      {| responseStatus := 200; responseBody := data |}
  | None => responseStatus (fst (fst (GET fetch B H env q net))) = 500
  end.
Proof.
  intros Hp Ht Hpne Htne.
  rewrite (GET_configured env q net projectId accessToken) by assumption.
  cbv zeta. unfold succeeds, caught.
  destruct (answerOf fetch H projectId accessToken q net)
    as [[response | error] net']; cbn [fst snd]; [|split; reflexivity].
  destruct (ok response); cbn [negb]; [|split; reflexivity].
  destruct (json response) as [data | error]; [|split; reflexivity].
  destruct (nullish data); cbn [orb]; [split; reflexivity|].
  destruct (truthy (getProp data "error")); split; reflexivity.
Qed.

(** X24: when [NODE_ENV] is not development, an answer of 500 carries no
    details of the failure: its [details] is undefined, whatever failed. *)
Theorem GET_details_only_in_development env q net :
  responseStatus (fst (fst (GET fetch B H env q net))) = 500 ->
  isDevelopment (nodeEnv env) = false ->
  getProp (responseBody (fst (fst (GET fetch B H env q net)))) "details" =
  VUndefined.
Proof.
  intros Hstatus Hdev. revert Hstatus. unfold GET, caught. rewrite Hdev.
  destruct (NEXT_PUBLIC_SUPABASE_PROJECT_ID env) as [projectId|];
    [|reflexivity].
  destruct (SUPABASE_ACCESS_TOKEN env) as [accessToken|]; [|reflexivity].
  destruct (String.eqb projectId "" || String.eqb accessToken "")%bool;
    [reflexivity|].
  destruct (fetch _ _ net) as [[response | error] net']; [|reflexivity].
  destruct (negb (ok response)); [reflexivity|].
  destruct (json response) as [data | error]; [|reflexivity].
  destruct (nullish data); [reflexivity|].
  destruct (truthy (getProp data "error")); [reflexivity|].
  cbn [fst responseStatus]. discriminate.
Qed.


End Handler.

Lemma spreadParam_entry (name : string) (value : option string)
    (entry : string * string) :
  In entry (spreadParam name value) <->
  fst entry = name /\ value = Some (snd entry) /\ snd entry <> ""%string.
Proof.
  unfold spreadParam. destruct entry as [k v]. cbn [fst snd].
  destruct value as [x|].
  - destruct (String.eqb_spec x "") as [-> | Hne]; simpl.
    + split; [contradiction|]. intros (_ & Heq & Hv). congruence.
    + split.
      * intros [Heq | []]. injection Heq as <- <-. now repeat split.
      * intros (<- & Heq & _). injection Heq as <-. now left.
  - simpl. split; [contradiction|]. intros (_ & Heq & _). discriminate.
Qed.

(** X26: the query sent to the platform has an entry for each of [start],
    [end] and [sql] that is given and not empty, under the platform's name
    for it ([iso_timestamp_start], [iso_timestamp_end], [sql]) and with the
    value given, and no other entry; when none is given the address is the
    endpoint's, without a question mark. *)
Theorem paramsOf_renames (H : Host) (q : SearchParams) :
  (forall name value,
     In (name, value) (paramsOf q) <->
     value <> ""%string /\
     (name = "iso_timestamp_start"%string /\ start q = Some value \/
      name = "iso_timestamp_end"%string /\ end_ q = Some value \/
      name = "sql"%string /\ sql q = Some value)) /\
  (truthyVar (start q) = false -> truthyVar (end_ q) = false ->
   truthyVar (sql q) = false ->
   forall projectId,
     urlOf H projectId q =
     ("https://api.supabase.com/v1/projects/" ++ projectId ++
      "/analytics/endpoints/logs.all")%string).
Proof.
  split.
  - intros name value. unfold paramsOf.
    rewrite !in_app_iff, !spreadParam_entry. cbn [fst snd].
    intuition (subst; auto).
  - intros Hs He Hq projectId. unfold urlOf, queryOf, paramsOf.
    assert (Hnone : forall name o, truthyVar o = false ->
                                   spreadParam name o = []).
    { intros name [x|]; simpl; [|reflexivity].
      destruct (String.eqb x ""); [reflexivity | discriminate]. }
    rewrite !Hnone by assumption. reflexivity.
Qed.

End AuthLogsUse.

(** ** Examples of the properties of Part III *)

Module UseExamples.

Import LoggerUse.

Lemma log_then_getLogs_head_witness :
  hd_error (fst (getLogs (Some 1%Z) (Some Error)
                   (log plainBuiltins devEnv 400 Error "rpc" None rpcFailure
                      None sampleStore))) =
  Some (makeLog plainBuiltins devEnv 400 Error "rpc" None rpcFailure None).
Proof.
  apply StoreUse.log_then_getLogs_head.
  - reflexivity.
  - intros n Hn. injection Hn as <-. lia.
  - now right.
Defined.


Lemma sanitizeLogDetails_clean_witness :
  NoDup (map fst (sanitizeLogDetails prodEnv sampleDetails)) /\
  ~ In ("access_token"%string, VStr "eyJhbGciOi")
       (sanitizeLogDetails prodEnv sampleDetails).
Proof.
  destruct (SanitizerUse.sanitizeLogDetails_clean prodEnv sampleDetails)
    as [Hclean Hnodup].
  split; [exact Hnodup|].
  intros Hin.
  destruct (Hclean "access_token"%string (VStr "eyJhbGciOi") Hin)
    as (_ & _ & Hredacted & _).
  discriminate (Hredacted eq_refl eq_refl).
Defined.

Lemma sanitizeLogDetails_pass_witness :
  sanitizeLogDetails devEnv sampleDetails =
    [("user"%string, VStr "ada"); ("access_token"%string, VStr "eyJhbGciOi")] /\
  sanitizeLogDetails devEnv (sanitizeLogDetails devEnv sampleDetails) =
    sanitizeLogDetails devEnv sampleDetails.
Proof.
  destruct (SanitizerUse.sanitizeLogDetails_pass devEnv sampleDetails
              SanitizerSpec.sampleDetails_distinct) as [Hpass Hagain].
  split; [rewrite Hpass; reflexivity | exact Hagain].
Defined.

Lemma formatLog_of_sanitized_witness :
  formatLog plainBuiltins devEnv entryWithDetails =
  formatLog plainBuiltins devEnv
    {| timestamp := 1700000000000;
       level := Info;
       operation := "select";
       details := Some (sanitizeLogDetails devEnv sampleDetails);
       duration := None;
       error := None;
       environment := "development" |}.
Proof.
  apply (SanitizerUse.formatLog_of_sanitized plainBuiltins devEnv
           entryWithDetails sampleDetails eq_refl
           SanitizerSpec.sampleDetails_distinct).
Defined.



Lemma wrapClient_non_function_witness :
  wrapClient plainBuiltins devEnv sampleClient "supabaseUrl" =
    Data (VStr "https://project.supabase.co") /\
  snd (invoke (wrapClient plainBuiltins devEnv sampleClient) "supabaseUrl"
         VUndefined [] tickingClock initial) = initial.
Proof.
  destruct (WrapperUse.wrapClient_non_function plainBuiltins devEnv
              sampleClient "supabaseUrl" (VStr "https://project.supabase.co")
              VUndefined [] tickingClock initial eq_refl)
    as (Hread & _ & Hstate).
  split; assumption.
Defined.



Lemma reportAll_logs_witness :
  map (@details)
    (logs (reportAll plainBuiltins devEnv "room" statusEvents initial)) =
  [Some [("channel"%string, VStr "room"); ("status"%string, VStr "CLOSED")];
   Some [("channel"%string, VStr "room"); ("status"%string, VStr "SUBSCRIBED")]].
Proof.
  rewrite (proj1 (WrapperUse.reportAll_logs plainBuiltins devEnv "room"
                    statusEvents initial eq_refl StoreSpec.initial_bounded)).
  reflexivity.
Defined.

Import Instrumentation.
Import ConsoleTap.

Lemma windowFetch_ok_unreported_witness :
  windowFetch recordingFetch plainBuiltins backendCall None tickingClock
    freshPage =
  callOriginal recordingFetch backendCall None tickingClock freshPage.
Proof.
  apply (TapUse.windowFetch_ok_unreported CallLog recordingFetch plainBuiltins
           backendCall None tickingClock freshPage).
  reflexivity.
Defined.



Lemma consoleError_silenced_for_good_witness :
  consoleError failingBackend echoBuiltins [VStr "render failed"]
    tickingClock
    (snd (browserFetch failingBackend echoBuiltins backendCall None
            tickingClock freshBrowser)) =
  snd (browserFetch failingBackend echoBuiltins backendCall None
         tickingClock freshBrowser).
Proof.
  apply (TapUse.consoleError_silenced_for_good CallLog failingBackend
           echoBuiltins backendCall None tickingClock freshBrowser
           eq_refl eq_refl).
Defined.

Import TracesRoute.

Lemma POST_stops_at_bad_timestamp_witness :
  exists lines,
    POST plainBuiltins
      (TraceArray ([tapError; pageView] ++ farFutureError :: [tapError])) =
      (map SupabaseError lines ++ [ErrorProcessingTraces RangeError],
       invalidResponse) /\
    List.length lines = 1.
Proof.
  destruct (TracesUse.POST_stops_at_bad_timestamp plainBuiltins
              [tapError; pageView] [tapError] farFutureError)
    as (lines & Hpost & Hlines).
  - intros t [<- | [<- | []]] _; reflexivity.
  - reflexivity.
  - reflexivity.
  - exists lines. split; [exact Hpost|].
    rewrite <- (length_map Some), Hlines. reflexivity.
Defined.

Import AuthLogsRoute.

Lemma GET_missing_configuration_witness :
  GET platformOk echoBuiltins plainHost routeEnvWithoutToken lastHour [] =
  ({| responseStatus := 500;
      responseBody := VObj [("error"%string, VStr missingVariables)] |},
   [], []).
Proof.
  apply (AuthLogsUse.GET_missing_configuration (list string) platformOk
           echoBuiltins plainHost routeEnvWithoutToken lastHour []).
  now right.
Defined.

Lemma GET_status_witness :
  fst (fst (GET platformOk echoBuiltins plainHost (routeEnv prodEnv)
              lastHour [])) =
    {| responseStatus := 200; responseBody := platformData |} /\
  snd (fst (GET platformOk echoBuiltins plainHost (routeEnv prodEnv)
              lastHour [])) =
    ["https://api.supabase.com/v1/projects/abc/analytics/endpoints/logs.all?iso_timestamp_start=2024-01-01T00:00:00Z"%string].
Proof.
  destruct (AuthLogsUse.GET_status (list string) platformOk echoBuiltins
              plainHost (routeEnv prodEnv) lastHour [] "abc" "sbp_1"
              eq_refl eq_refl) as [Hnet Hresponse];
    try discriminate.
  split; [exact Hresponse | exact Hnet].
Defined.

Lemma GET_details_only_in_development_witness :
  getProp
    (responseBody
       (fst (fst (GET platformDenies echoBuiltins plainHost (routeEnv prodEnv)
                    lastHour []))))
    "details" = VUndefined.
Proof.
  apply (AuthLogsUse.GET_details_only_in_development (list string)
           platformDenies echoBuiltins plainHost (routeEnv prodEnv) lastHour []);
    reflexivity.
Defined.


Lemma paramsOf_renames_witness :
  In ("iso_timestamp_start"%string, "2024-01-01T00:00:00Z"%string)
     (paramsOf lastHour) /\
  ~ In ("sql"%string, ""%string) (paramsOf lastHour).
Proof.
  destruct (AuthLogsUse.paramsOf_renames plainHost lastHour) as [Hentries _].
  split.
  - apply Hentries. split; [discriminate|]. left. now split.
  - intros Hin. apply Hentries in Hin. destruct Hin as [Hne _]. now apply Hne.
Defined.

End UseExamples.
